(** * koa-middleware: response, error and profiling stages

    A shallow embedding of [src/index.js] and the properties of its three
    pipeline stages ([useReturnValue], [errorHandler], [requestProfiler])
    and two helpers ([setErrorResponse], [logError]). *)

From Stdlib Require Import QArith.
From stdpp Require Import base option list strings pretty gmap fin_maps.

Set Default Proof Using "Type".
Set Warnings "-register-all".
Local Open Scope string_scope.
Local Open Scope list_scope.

(** ** JavaScript data values *)

(** A JavaScript number: every finite double is a rational, so [NFin]
    covers them (the two zeros are identified: they are equal for [>=]
    and both falsy). *)
Inductive number : Type :=
  | NNaN
  | NPosInf
  | NNegInf
  | NFin (q : Q).

(** The data a failure, a status, a body or a return value can hold:
    primitives and plain objects (own properties by name, as deep
    equality sees them). Properties inherited from a prototype are not
    modelled; none of the names this program reads ([message], [stack],
    [statusCode], [status], [code], [error], [body]) is inherited, but
    for [Error.prototype.message], the empty string, which an [Error]
    built without a message is taken to carry itself. *)
Inductive value : Type :=
  | VUndef
  | VNull
  | VBool (b : bool)
  | VNum (n : number)
  | VStr (s : string)
  | VObj (props : gmap string value).

Definition nz (z : Z) : number := NFin (inject_Z z).
Definition num (z : Z) : value := VNum (nz z).

(** [ToBoolean]. *)
Definition truthy (v : value) : bool :=
  match v with
  | VUndef | VNull => false
  | VBool b => b
  | VNum NNaN => false
  | VNum (NFin q) => negb (Qeq_bool q 0)
  | VNum _ => true
  | VStr s => negb (String.eqb s EmptyString)
  | VObj _ => true
  end.

(** The value of [a || b], both operands evaluated. *)
Definition js_or (a b : value) : value := if truthy a then a else b.

(** [typeof v]. *)
Definition js_typeof (v : value) : string :=
  match v with
  | VUndef => "undefined"
  | VNull => "object"
  | VBool _ => "boolean"
  | VNum _ => "number"
  | VStr _ => "string"
  | VObj _ => "object"
  end.

Definition nullish (v : value) : bool :=
  match v with VUndef | VNull => true | _ => false end.

(** The own enumerable properties of a string: its characters by index. *)
Definition string_props (s : string) : gmap string value :=
  list_to_map
    (imap (fun i ch => (pretty i, VStr (String ch EmptyString))) (String.list_ascii_of_string s)).

(** What object spread [{...v}] copies: the own enumerable properties of
    [v]; nothing for [undefined], [null], booleans and numbers. *)
Definition own_props (v : value) : gmap string value :=
  match v with
  | VObj o => o
  | VStr s => string_props s
  | _ => ∅
  end.

(** ** Numeric comparison *)

(** [x < y] on numbers: [None] when either is [NaN]. *)
Definition num_lt (x y : number) : option bool :=
  match x, y with
  | NNaN, _ | _, NNaN => None
  | NFin p, NFin q => Some (negb (Qle_bool q p))
  | NNegInf, NNegInf => Some false
  | NNegInf, _ => Some true
  | _, NNegInf => Some false
  | NPosInf, _ => Some false
  | _, NPosInf => Some true
  end.

(** ** Outcomes, the request context and the observable trace *)

(** How a call ends: it returns, or throws. An awaited call is
    represented by the way its promise settles, and an [async] stage by
    the way the promise it returns settles. *)
Inductive outcome (A : Type) : Type :=
  | Ok (a : A)
  | Throw (e : value).
Arguments Ok {A} a.
Arguments Throw {A} e.

(** The [TypeError] the engine raises on a read through [undefined] or
    [null] (the message text is V8's). *)
Definition TypeError (what : string) : value :=
  VObj {[ "name" := VStr "TypeError";
          "message" := VStr ("Cannot read properties of " +:+ what) ]}.

(** Property read [v.k]. *)
Definition get_prop (v : value) (k : string) : outcome value :=
  match v with
  | VUndef => Throw (TypeError "undefined")
  | VNull => Throw (TypeError "null")
  | VObj o => Ok (default VUndef (o !! k))
  | VStr s =>
      Ok (if String.eqb k "length" then num (Z.of_nat (String.length s))
          else default VUndef (string_props s !! k))
  | _ => Ok VUndef
  end.

Inductive Level : Type := LTrace | LDebug | LInfo | LWarn | LError.

(** A logger: five methods taking a message and optional structured
    fields; a method of a caller's logger may throw. *)
Definition Logger : Type := Level -> list value -> outcome value.

Definition noop : list value -> outcome value := fun _ => Ok VUndef.

Definition disabledLogger : Logger := fun _ => noop.

(** [ctx.state.timing]. *)
Record Timing : Type := {
  start : value;
  duration : value
}.

(** [ctx.state]: the caller's extension data. *)
Record State : Type := {
  logger : option Logger;
  traceId : value;
  timing : option Timing
}.

(** The request context, a plain object as in the repository's tests;
    [state] may be missing. *)
Record Ctx : Type := {
  status : value;
  body : value;
  method : value;
  url : value;
  state : option State
}.

Definition set_status (v : value) (c : Ctx) : Ctx :=
  {| status := v; body := body c; method := method c; url := url c;
     state := state c |}.

Definition set_body (v : value) (c : Ctx) : Ctx :=
  {| status := status c; body := v; method := method c; url := url c;
     state := state c |}.

Definition set_state (s : State) (c : Ctx) : Ctx :=
  {| status := status c; body := body c; method := method c; url := url c;
     state := Some s |}.

Definition set_timing (t : Timing) (s : State) : State :=
  {| logger := logger s; traceId := traceId s; timing := Some t |}.

(** A function supplied by the caller ([fn], [next], a callback of
    [dependencies]), run on the shared context, which it may change.
    Where the source awaits the call, [Throw] is a rejection as well as a
    synchronous throw; where it does not (the four callbacks of
    [requestProfiler]), [Throw] is a synchronous throw only, and a
    promise the callback returns is a value like any other, dropped. *)
Definition Handler : Type := Ctx -> outcome value * Ctx.

(** What a stage does that an observer (a spy) can see, in order. Calls
    that receive [ctx] record it as it is when they are made. *)
Inductive Event : Type :=
  | EvFn (c : Ctx)
  | EvNext
  | EvGetTraceId (c : Ctx)
  | EvInstrumentation (e : value) (c : Ctx) (statusCode errorCode : value)
  | EvGetLogger (c : Ctx)
  | EvLog (l : Level) (args : list value)
  | EvSet (name val : value)
  | EvRequestStarted (c : Ctx)
  | EvRequestFinished (c : Ctx)
  | EvRequestSucceeded (c : Ctx)
  | EvRequestFailed (c : Ctx).

Record World : Type := {
  w_ctx : Ctx;
  w_trace : list Event
}.

(** ** The monad of stage code: shared context, trace, exceptions *)

Definition M (A : Type) : Type := World -> outcome A * World.

Global Instance M_ret : MRet M := fun A a w => (Ok a, w).

Global Instance M_bind : MBind M := fun A B f m w =>
  match m w with
  | (Ok a, w') => f a w'
  | (Throw e, w') => (Throw e, w')
  end.

(** [try { body } catch (e) { handler e }]. *)
Definition try_catch {A} (body : M A) (handler : value -> M A) : M A :=
  fun w =>
    match body w with
    | (Ok a, w') => (Ok a, w')
    | (Throw e, w') => handler e w'
    end.

Definition lift {A} (r : outcome A) : M A := fun w => (r, w).

Definition read_ctx : M Ctx := fun w => (Ok (w_ctx w), w).

Definition modify_ctx (f : Ctx -> Ctx) : M unit := fun w =>
  (Ok tt, {| w_ctx := f (w_ctx w); w_trace := w_trace w |}).

Definition emit (ev : Ctx -> Event) : M unit := fun w =>
  (Ok tt, {| w_ctx := w_ctx w; w_trace := w_trace w ++ [ev (w_ctx w)] |}).

(** Running a caller's function on the context. *)
Definition run {A} (h : Ctx -> outcome A * Ctx) : M A := fun w =>
  let '(r, c) := h (w_ctx w) in (r, {| w_ctx := c; w_trace := w_trace w |}).

(** [a || b]: [b] is evaluated only when [a] is falsy. *)
Definition or_else (a b : M value) : M value :=
  x ← a; if truthy x then mret x else b.

Infix "|||" := or_else (at level 50, left associativity).

(** [ctx.status]. *)
Definition read_status : M value := c ← read_ctx; mret (status c).

(** [ctx.state], for a read of [ctx.state.<field>]. *)
Definition read_state : M State :=
  c ← read_ctx;
  match state c with
  | Some s => mret s
  | None => lift (Throw (TypeError "undefined"))
  end.

(** [l.<level>(...args)] for the logger [l], [undefined] when [None]. *)
Definition log (l : option Logger) (lvl : Level) (args : M (list value)) : M value :=
  match l with
  | None => lift (Throw (TypeError "undefined"))
  | Some f =>
      a ← args;
      _ ← emit (fun _ => EvLog lvl a);
      lift (f lvl a)
  end.

(** What the engine provides and the stages only pass through: the
    grammar of numeric strings, the text of a value in a template
    literal, the clock, and the float arithmetic of a duration. *)
Class JsRuntime : Type := {
  (** [Number(s)] for a string [s]. *)
  StringToNumber : string -> number;
  (** [`${v}`]. *)
  ToString : value -> string;
  (** [process.hrtime(start)], which rejects a [start] that is neither
      [undefined] nor a pair; [process.hrtime()] is [hrtime VUndef]. *)
  hrtime : value -> outcome value;
  (** [Number(((diff[0] * NS_PER_SEC + diff[1]) / 1000000).toFixed(2))]. *)
  duration_ms : value -> value
}.

Section Program.
Context `{rt : JsRuntime}.

(** [ToNumber]; a plain object converts through ["[object Object]"]. *)
Definition to_number (v : value) : number :=
  match v with
  | VUndef => NNaN
  | VNull => nz 0
  | VBool b => if b then nz 1 else nz 0
  | VNum n => n
  | VStr s => StringToNumber s
  | VObj _ => NNaN
  end.

(** [v >= n] and [v < n] against a number literal [n]. *)
Definition js_ge (v : value) (n : number) : bool :=
  match num_lt (to_number v) n with Some false => true | _ => false end.

Definition js_lt (v : value) (n : number) : bool :=
  match num_lt (to_number v) n with Some true => true | _ => false end.

(** ** The source, function by function *)

(** [useReturnValue], lines 18-29. *)
Definition useReturnValue (fn : Handler) (next : Handler) : M value :=
  response ← (_ ← emit EvFn; run fn);
  _ ← (if negb (String.eqb (js_typeof response) "undefined")
       then _ ← modify_ctx (set_status (num 200));
            modify_ctx (set_body response)
       else modify_ctx (set_status (num 204)));
  _ ← emit (fun _ => EvNext); run next.

(** [setErrorResponse], lines 31-44; [logger] is [None] when the
    argument is left out. *)
Definition setErrorResponse (e : value) (logger : option Logger) : M value :=
  let logger := Some (default disabledLogger logger) in
  _ ← log logger LError (m ← lift (get_prop e "message"); mret [m]);
  _ ← log logger LDebug (s ← lift (get_prop e "stack"); mret [s]);
  message ← lift (get_prop e "error") ||| lift (get_prop e "body")
            ||| lift (get_prop e "message") ||| mret (VStr "Internal server error");
  status ← lift (get_prop e "statusCode") ||| lift (get_prop e "status")
           ||| lift (get_prop e "code") ||| mret (num 500);
  _ ← modify_ctx (set_status status);
  nested ← (if String.eqb (js_typeof message) "object"
            then lift (get_prop message "message")
            else mret (VBool false));
  body_message ← (if truthy nested then lift (get_prop message "message")
                  else mret message);
  _ ← modify_ctx (set_body (VObj {[ "message" := body_message ]}));
  mret VUndef.

(** [logError], lines 46-54. *)
Definition logError (e statusCode errorCode : value) : M value :=
  st ← read_state;
  let logger := logger st in
  _ ← log logger LError
        (m ← lift (get_prop e "message");
         mret [VObj {[ "errorCode" := errorCode; "statusCode" := statusCode ]}; m]);
  if js_ge statusCode (nz 500)
  then _ ← log logger LError (s ← lift (get_prop e "stack"); mret [s]);
       mret VUndef
  else mret VUndef.

(** The [dependencies] of [errorHandler]; [None] is a property left out. *)
Record ErrorHandlerDeps : Type := {
  getTraceId : option Handler;
  instrumentation : option (value -> value -> value -> Handler)
}.

Definition no_error_deps : ErrorHandlerDeps :=
  {| getTraceId := None; instrumentation := None |}.

(** Lines 57-60: the two callbacks after destructuring. The default
    [getTraceId] is [ctx => ctx.state.traceId]. *)
Definition default_getTraceId : Handler := fun ctx =>
  match state ctx with
  | Some st => (Ok (traceId st), ctx)
  | None => (Throw (TypeError "undefined"), ctx)
  end.

Definition resolved_getTraceId (dependencies : ErrorHandlerDeps) : Handler :=
  default default_getTraceId (getTraceId dependencies).

Definition resolved_instrumentation (dependencies : ErrorHandlerDeps)
    : value -> value -> value -> M value :=
  match instrumentation dependencies with
  | Some f => fun e statusCode errorCode => run (f e statusCode errorCode)
  | None => logError
  end.

(** [errorHandler], lines 56-82; [None] is the argument left out. *)
Definition errorHandler (dependencies : option ErrorHandlerDeps) (next : Handler)
    : M value :=
  let dependencies := default no_error_deps dependencies in
  let getTraceId := resolved_getTraceId dependencies in
  let instrumentation := resolved_instrumentation dependencies in
  try_catch
    (_ ← emit (fun _ => EvNext); _ ← run next; mret VUndef)
    (fun e =>
       message ← lift (get_prop e "message") ||| mret (VStr "Internal server error");
       status ← lift (get_prop e "statusCode") ||| mret (num 500);
       errorCode ← lift (get_prop e "code") ||| mret (num 0);
       traceId ← (_ ← emit EvGetTraceId; run getTraceId);
       _ ← modify_ctx (set_status status);
       e_body ← lift (get_prop e "body");
       _ ← modify_ctx
             (set_body
                (VObj (<["traceId" := traceId]>
                         (<["errorCode" := errorCode]>
                            (<["message" := message]> (own_props e_body))))));
       _ ← emit (fun ctx => EvInstrumentation e ctx status errorCode);
       _ ← instrumentation e status errorCode;
       mret VUndef).

(** The [dependencies] of [requestProfiler]; [None] is a property left
    out. *)
Record ProfilerDeps : Type := {
  getLogger : option (Ctx -> outcome (option Logger) * Ctx);
  requestStarted : option Handler;
  requestFinished : option Handler;
  requestSucceeded : option Handler;
  requestFailed : option Handler
}.

Definition no_profiler_deps : ProfilerDeps :=
  {| getLogger := None; requestStarted := None; requestFinished := None;
     requestSucceeded := None; requestFailed := None |}.

(** The double quote character of the [Server-Timing] header. *)
Definition dquote : string := String (Ascii.ascii_of_nat 34) EmptyString.

(** [ctx.state.timing], for a read or a write of one of its fields. *)
Definition read_timing : M (State * Timing) :=
  st ← read_state;
  match timing st with
  | Some t => mret (st, t)
  | None => lift (Throw (TypeError "undefined"))
  end.

Section Profiler.
Variable dependencies : ProfilerDeps.

(** Lines 88-124: the callbacks after destructuring, the defaults where
    the caller gave none. *)
Definition resolved_getLogger : M (option Logger) :=
  _ ← emit EvGetLogger;
  match getLogger dependencies with
  | Some f => run f
  | None => st ← read_state; mret (logger st)
  end.

Definition endpoint_of (c : Ctx) : string :=
  ToString (method c) +:+ " " +:+ ToString (url c).

Definition resolved_requestStarted : M value :=
  match requestStarted dependencies with
  | Some f => run f
  | None =>
      l ← resolved_getLogger;
      _ ← log l LTrace (c ← read_ctx; mret [VStr (endpoint_of c +:+ " starting")]);
      t ← lift (hrtime VUndef);
      st ← read_state;
      _ ← modify_ctx (set_state (set_timing {| start := t; duration := VUndef |} st));
      mret VUndef
  end.

Definition resolved_requestFinished : M value :=
  match requestFinished dependencies with
  | Some f => run f
  | None =>
      '(_, t) ← read_timing;
      diff ← lift (hrtime (start t));
      let duration := duration_ms diff in
      '(st, t) ← read_timing;
      _ ← modify_ctx
            (set_state (set_timing {| start := start t; duration := duration |} st));
      _ ← emit (fun _ =>
            EvSet (VStr "Server-Timing")
              (VStr ("total;dur=" +:+ ToString duration +:+ ";desc="
                    +:+ dquote +:+ "Total" +:+ dquote)));
      mret VUndef
  end.

Definition resolved_requestSucceeded : M value :=
  match requestSucceeded dependencies with
  | Some f => run f
  | None =>
      c ← read_ctx;
      let endpoint := endpoint_of c in
      '(_, t) ← read_timing;
      let elapsed := duration t in
      let status := status c in
      l ← resolved_getLogger;
      _ ← log l LTrace
            (mret [VObj {[ "endpoint" := VStr endpoint; "status" := status;
                           "elapsed" := elapsed ]};
                   VStr (endpoint +:+ " finished successfully, took "
                         +:+ ToString elapsed +:+ " msec.")]);
      mret VUndef
  end.

Definition resolved_requestFailed : M value :=
  match requestFailed dependencies with
  | Some f => run f
  | None =>
      c ← read_ctx;
      let endpoint := endpoint_of c in
      '(_, t) ← read_timing;
      let elapsed := duration t in
      let status := status c in
      l ← resolved_getLogger;
      _ ← log l LWarn
            (ctx_status ← read_status;
             mret [VObj {[ "endpoint" := VStr endpoint; "status" := status;
                           "elapsed" := elapsed; "error" := VBool true ]};
                   VStr (endpoint +:+ " finished with " +:+ ToString ctx_status
                         +:+ " error, took " +:+ ToString elapsed +:+ " msec.")]);
      mret VUndef
  end.

(** [requestProfiler], the stage of lines 127-139. *)
Definition requestProfiler_stage (next : Handler) : M value :=
  _ ← (_ ← emit EvRequestStarted; resolved_requestStarted);
  _ ← (_ ← emit (fun _ => EvNext); run next);
  _ ← (_ ← emit EvRequestFinished; resolved_requestFinished);
  c ← read_ctx;
  if js_ge (status c) (nz 400)
  then _ ← (_ ← emit EvRequestFailed; resolved_requestFailed); mret VUndef
  else _ ← (_ ← emit EvRequestSucceeded; resolved_requestSucceeded); mret VUndef.

End Profiler.

(** [requestProfiler], lines 84-140; [None] is the argument left out. *)
Definition requestProfiler (dependencies : option ProfilerDeps) : Handler -> M value :=
  requestProfiler_stage (default no_profiler_deps dependencies).

End Program.

(** ** A runtime to run the stages on examples *)

Fixpoint decimal_digits (s : string) (acc : Z) : option Z :=
  match s with
  | EmptyString => Some acc
  | String ch rest =>
      let d := (Z.of_N (Ascii.N_of_ascii ch) - 48)%Z in
      if (0 <=? d)%Z && (d <=? 9)%Z then decimal_digits rest (10 * acc + d)%Z
      else None
  end.

(** Enough of the engine for the examples: unsigned decimal literals,
    the text of strings and integers, and a clock that has advanced by
    120 ms when it is read against a start marker. *)
Definition example_runtime : JsRuntime := {|
  StringToNumber s :=
    match decimal_digits s 0 with Some z => nz z | None => NNaN end;
  ToString v :=
    match v with
    | VUndef => "undefined"
    | VNull => "null"
    | VBool b => if b then "true" else "false"
    | VNum (NFin q) => pretty (Qnum q)
    | VNum _ => "NaN"
    | VStr s => s
    | VObj _ => "[object Object]"
    end;
  hrtime start :=
    match start with
    | VUndef => Ok (VObj {[ "0" := num 7; "1" := num 0 ]})
    | VObj _ => Ok (VObj {[ "0" := num 0; "1" := num 120000000 ]})
    | _ => Throw (VObj {[ "name" := VStr "TypeError" ]})
    end;
  duration_ms diff :=
    match diff with
    | VObj o =>
        match o !! "1" with
        | Some (VNum (NFin q)) => VNum (NFin (q / inject_Z 1000000)%Q)
        | _ => VNum NNaN
        end
    | _ => VNum NNaN
    end
|}.

Definition mock_logger : Logger := fun _ _ => Ok VUndef.

Definition mock_ctx (status : value) : Ctx :=
  {| status := status; body := VUndef; method := VStr "GET"; url := VStr "/";
     state := Some {| logger := Some mock_logger; traceId := VStr "mock-trace-id";
                      timing := Some {| start := VUndef; duration := VUndef |} |} |}.

Definition fresh (c : Ctx) : World := {| w_ctx := c; w_trace := [] |}.

Definition rejects (e : value) : Handler := fun c => (Throw e, c).
Definition resolves (v : value) : Handler := fun c => (Ok v, c).

(** [new Error('boom')] with [statusCode = 403], [code = 7]. *)
Definition boom : value :=
  VObj {[ "message" := VStr "boom"; "statusCode" := num 403; "code" := num 7 ]}.

(** The world in which a callback of the profiler runs: the call is
    recorded with the context it receives. *)
Definition calling (ev : Ctx -> Event) (c : Ctx) (t : list Event) : World :=
  {| w_ctx := c; w_trace := t ++ [ev c] |}.

(** An error with a body of extra fields, as in the repository's test
    'includes error body in response'. *)
Definition error_with_body : value :=
  VObj {[ "message" := VStr "A plain error message";
          "body" := VObj {[ "prop" := VStr "additional prop" ]};
          "statusCode" := num 123; "code" := num 456 ]}.

(** A failure whose [error] is an error-shaped object. *)
Definition nested_error : value :=
  VObj {[ "error" := VObj {[ "message" := VStr "inner" ]} ]}.

(** A failure whose [error] is an [Error] built without a message. *)
Definition empty_nested_error : value :=
  VObj {[ "error" := VObj {[ "message" := VStr EmptyString ]} ]}.

(** A failure that carries [status] and no [statusCode]. *)
Definition not_found : value :=
  VObj {[ "message" := VStr "Not found"; "status" := num 404 ]}.

(** A failure with a stack. *)
Definition with_stack : value :=
  VObj {[ "message" := VStr "An error message";
          "stack" := VStr "error stack trace string" ]}.

(** A callback that only returns (a spy), and an instrumentation that
    throws. *)
Definition spy : Handler := resolves VUndef.

Definition failing_instrumentation : value -> value -> value -> Handler :=
  fun _ _ _ => rejects (VStr "instrumentation failed").

Definition spied_outcomes : ProfilerDeps :=
  {| getLogger := None; requestStarted := None; requestFinished := None;
     requestSucceeded := Some spy; requestFailed := Some spy |}.

(** The worlds of a profiled request on [mock_ctx status] with the
    default [requestStarted] and [requestFinished]: after the first has
    run, and after the second has run behind a continuation that leaves
    the context alone. *)
Definition after_started (status : value) : World :=
  snd (resolved_requestStarted (rt := example_runtime) spied_outcomes
         (calling EvRequestStarted (mock_ctx status) [])).

Definition after_finished (status : value) : World :=
  snd (resolved_requestFinished (rt := example_runtime) spied_outcomes
         (calling EvRequestFinished (w_ctx (after_started status))
            (w_trace (after_started status) ++ [EvNext]))).

(** ** Vocabulary of the properties *)

(** [v.k] as a value, for a [v] that can be read through. *)
Definition prop (v : value) (k : string) : value :=
  match get_prop v k with Ok x => x | Throw _ => VUndef end.

(** The message [setErrorResponse] resolves. *)
Definition resolved_message (e : value) : value :=
  js_or (js_or (js_or (prop e "error") (prop e "body")) (prop e "message"))
    (VStr "Internal server error").

(** [body.message] of a context, when [body] is an object. *)
Definition body_message (c : Ctx) : option value :=
  match body c with VObj o => o !! "message" | _ => None end.

Definition is_object (v : value) : bool :=
  match v with VObj _ => true | _ => false end.

(** The status, error code and message [errorHandler] resolves. *)
Definition error_status (e : value) : value := js_or (prop e "statusCode") (num 500).
Definition error_code (e : value) : value := js_or (prop e "code") (num 0).
Definition error_message (e : value) : value :=
  js_or (prop e "message") (VStr "Internal server error").

Definition is_log (ev : Event) : bool :=
  match ev with EvLog _ _ => true | _ => false end.

Definition is_instrumentation (ev : Event) : bool :=
  match ev with EvInstrumentation _ _ _ _ => true | _ => false end.

(** The calls of [requestProfiler]'s stage: the four callbacks and the
    downstream continuation. *)
Definition is_stage_call (ev : Event) : bool :=
  match ev with
  | EvRequestStarted _ | EvNext | EvRequestFinished _
  | EvRequestSucceeded _ | EvRequestFailed _ => true
  | _ => false
  end.

Definition stage_calls (t : list Event) : list Event :=
  filter (fun ev => is_stage_call ev = true) t.

(** A computation that only extends the trace, and with no stage call. *)
Definition quiet {A} (m : M A) : Prop :=
  forall w, exists evs,
    w_trace (snd (m w)) = w_trace w ++ evs /\ stage_calls evs = [].

(** ** Vocabulary of the further properties *)

(** The body [errorHandler] builds for the failure [e] and the trace id
    [t], and the context once it has written status and body. *)
Definition envelope (e t : value) : value :=
  VObj (<["traceId" := t]>
          (<["errorCode" := error_code e]>
             (<["message" := error_message e]> (own_props (prop e "body"))))).

Definition responded (e t : value) (c : Ctx) : Ctx :=
  set_body (envelope e t) (set_status (error_status e) c).

(** [ctx.state.logger], when both are there. *)
Definition ctx_logger (c : Ctx) : option Logger :=
  match state c with Some st => logger st | None => None end.

(** A logger none of whose methods throws. *)
Definition well_behaved (l : Logger) : Prop :=
  forall lvl args, exists r, l lvl args = Ok r.

(** What [logError] passes to its first [logger.error] call. *)
Definition error_entry (e statusCode errorCode : value) : list value :=
  [VObj {[ "errorCode" := errorCode; "statusCode" := statusCode ]}; prop e "message"].

(** A stage with its continuation, as the continuation of an outer
    stage: it runs on the shared context, and the outer stage sees none
    of the calls made inside. *)
Definition as_handler (m : M value) : Handler := fun c =>
  let '(r, w) := m (fresh c) in (r, w_ctx w).

(** What [getLogger(ctx)] gives: the caller's function, or by default
    [ctx.state.logger]. *)
Definition getLogger_of (dependencies : ProfilerDeps)
    : Ctx -> outcome (option Logger) * Ctx :=
  match getLogger dependencies with
  | Some f => f
  | None => fun c =>
      match state c with
      | Some st => (Ok (logger st), c)
      | None => (Throw (TypeError "undefined"), c)
      end
  end.

(** The context with [ctx.state.timing] replaced. *)
Definition with_timing (tm : Timing) (st : State) (c : Ctx) : Ctx :=
  set_state (set_timing tm st) c.

(** The context [useReturnValue] hands to its continuation when the
    handler returned [v] on [c]. *)
Definition returned (v : value) (c : Ctx) : Ctx :=
  match v with
  | VUndef => set_status (num 204) c
  | _ => set_body v (set_status (num 200) c)
  end.

Section FurtherVocabulary.
Context `{rt : JsRuntime}.

(** What the default callbacks of [requestProfiler] log and set. *)
Definition starting_entry (c : Ctx) : list value :=
  [VStr (endpoint_of c +:+ " starting")].

Definition timing_header (d : value) : Event :=
  EvSet (VStr "Server-Timing")
    (VStr ("total;dur=" +:+ ToString d +:+ ";desc=" +:+ dquote +:+ "Total" +:+ dquote)).

Definition succeeded_entry (c : Ctx) (elapsed : value) : list value :=
  [VObj {[ "endpoint" := VStr (endpoint_of c); "status" := status c;
           "elapsed" := elapsed ]};
   VStr (endpoint_of c +:+ " finished successfully, took "
         +:+ ToString elapsed +:+ " msec.")].

(** [shown] is [ctx.status] as the message reads it again, after
    [getLogger(ctx)]. *)
Definition failed_entry (c : Ctx) (shown elapsed : value) : list value :=
  [VObj {[ "endpoint" := VStr (endpoint_of c); "status" := status c;
           "elapsed" := elapsed; "error" := VBool true ]};
   VStr (endpoint_of c +:+ " finished with " +:+ ToString shown
         +:+ " error, took " +:+ ToString elapsed +:+ " msec.")].

End FurtherVocabulary.

(** Contexts and callbacks for the further examples: a context without
    [state], one whose [state] has neither logger nor timing, a logger
    whose methods throw, and a [getLogger] of the caller. *)
Definition bare_ctx : Ctx :=
  {| status := VUndef; body := VUndef; method := VStr "GET"; url := VStr "/";
     state := None |}.

Definition quiet_ctx : Ctx :=
  {| status := VUndef; body := VUndef; method := VStr "GET"; url := VStr "/";
     state := Some {| logger := None; traceId := VStr "t1"; timing := None |} |}.

Definition broken_logger : Logger := fun _ _ => Throw (VStr "log sink down").

Definition own_getLogger : Ctx -> outcome (option Logger) * Ctx :=
  fun c => (Ok (Some mock_logger), c).

Definition with_own_getLogger : ProfilerDeps :=
  {| getLogger := Some own_getLogger; requestStarted := None; requestFinished := None;
     requestSucceeded := None; requestFailed := None |}.

Definition spied_start : ProfilerDeps :=
  {| getLogger := None; requestStarted := Some spy; requestFinished := None;
     requestSucceeded := None; requestFailed := None |}.

Definition failing_start : ProfilerDeps :=
  {| getLogger := None; requestStarted := Some (rejects (VStr "cannot start"));
     requestFinished := None; requestSucceeded := None; requestFailed := None |}.

Definition failing_outcome : ProfilerDeps :=
  {| getLogger := None; requestStarted := None; requestFinished := None;
     requestSucceeded := Some spy;
     requestFailed := Some (rejects (VStr "cannot report")) |}.

(** The start marker and the clock difference of [example_runtime]. *)
Definition example_start : value := VObj {[ "0" := num 7; "1" := num 0 ]}.
Definition example_diff : value := VObj {[ "0" := num 0; "1" := num 120000000 ]}.

(** ** The specification scenarios, run *)

Example truthy_examples :
  truthy (num 0) = false /\ truthy (num 403) = true /\
  truthy (VStr EmptyString) = false /\ truthy (VObj ∅) = true.
Proof. repeat split. Qed.

Example string_props_example :
  string_props "ab" = {[ "0" := VStr "a"; "1" := VStr "b" ]}.
Proof. vm_compute. reflexivity. Qed.

Example errorHandler_scenario :
  let w := errorHandler (rt := example_runtime) None (rejects boom)
             (fresh (mock_ctx VUndef)) in
  fst w = Ok VUndef /\
  status (w_ctx (snd w)) = num 403 /\
  body (w_ctx (snd w)) =
    VObj {[ "message" := VStr "boom"; "errorCode" := num 7;
            "traceId" := VStr "mock-trace-id" ]}.
Proof. vm_compute. repeat split. Qed.

Example useReturnValue_scenario :
  let w := useReturnValue (resolves (VObj {[ "a" := num 1 ]})) (resolves VUndef)
             (fresh (mock_ctx VUndef)) in
  status (w_ctx (snd w)) = num 200 /\ body (w_ctx (snd w)) = VObj {[ "a" := num 1 ]}.
Proof. vm_compute. repeat split. Qed.

Example requestProfiler_scenario :
  let w := requestProfiler (rt := example_runtime) None (resolves VUndef)
             (fresh (mock_ctx (num 200))) in
  fst w = Ok VUndef /\
  (timing <$> state (w_ctx (snd w))) =
    Some (Some {| start := VObj {[ "0" := num 7; "1" := num 0 ]};
                  duration := VNum (NFin (inject_Z 120000000 / inject_Z 1000000)%Q) |}).
Proof. vm_compute. repeat split. Qed.

(** ** Properties *)

Section Properties.
Context `{rt : JsRuntime}.

Lemma get_prop_ok (e : value) (k : string) :
  nullish e = false -> get_prop e k = Ok (prop e k).
Proof. unfold prop. destruct e; simpl; try discriminate; reflexivity. Qed.

Ltac mstep :=
  repeat (progress
    (unfold mbind, M_bind, modify_ctx, emit, read_ctx, run,
       try_catch, read_state, read_status, read_timing; cbn)).

Lemma or_else_values (a b : M value) (x y : value) (w : World) :
  a w = (Ok x, w) -> b w = (Ok y, w) -> (a ||| b) w = (Ok (js_or x y), w).
Proof.
  intros Ha Hb. unfold or_else, mbind, M_bind, js_or. rewrite Ha.
  destruct (truthy x); [reflexivity | exact Hb].
Qed.

Lemma or_chain2 (a d : value) (w : World) :
  (lift (Ok a) ||| mret d) w = (Ok (js_or a d), w).
Proof. by apply or_else_values. Qed.

Lemma or_chain4 (a b c d : value) (w : World) :
  (lift (Ok a) ||| lift (Ok b) ||| lift (Ok c) ||| mret d) w
    = (Ok (js_or (js_or (js_or a b) c) d), w).
Proof. repeat apply or_else_values; reflexivity. Qed.

Lemma js_or_truthy (a b : value) : truthy b = true -> truthy (js_or a b) = true.
Proof. unfold js_or. destruct (truthy a) eqn:Ha; auto. Qed.

Lemma resolved_message_truthy (e : value) : truthy (resolved_message e) = true.
Proof. unfold resolved_message. apply js_or_truthy. reflexivity. Qed.

Lemma setErrorResponse_run (e : value) (lg : option Logger) (w : World) (r1 r2 : value) :
  nullish e = false ->
  default disabledLogger lg LError [prop e "message"] = Ok r1 ->
  default disabledLogger lg LDebug [prop e "stack"] = Ok r2 ->
  setErrorResponse e lg w =
    (Ok VUndef,
     {| w_ctx :=
          set_body
            (VObj {[ "message" :=
                       if is_object (resolved_message e)
                          && truthy (prop (resolved_message e) "message")
                       then prop (resolved_message e) "message"
                       else resolved_message e ]})
            (set_status
               (js_or (js_or (js_or (prop e "statusCode") (prop e "status"))
                         (prop e "code")) (num 500))
               (w_ctx w));
        w_trace := w_trace w ++ [EvLog LError [prop e "message"];
                                 EvLog LDebug [prop e "stack"]] |}).
Proof.
  intros He H1 H2. unfold setErrorResponse, log.
  rewrite !(get_prop_ok e) by exact He. mstep.
  rewrite H1. cbn. rewrite H2. cbn.
  rewrite or_chain4. cbn. rewrite or_chain4. cbn.
  fold (resolved_message e).
  pose proof (resolved_message_truthy e) as Ht.
  rewrite <- app_assoc. cbn [app].
  destruct (resolved_message e) as [| |b|n|m|o] eqn:Hm; cbn in Ht |- *;
    try discriminate; try reflexivity.
  unfold prop. cbn. destruct (truthy (default VUndef (o !! "message"))); reflexivity.
Qed.

(** [logError] leaves the context alone and only adds log events. *)
Lemma logError_run (e statusCode errorCode : value) (w : World) (st : State) (l : Logger) :
  state (w_ctx w) = Some st -> logger st = Some l -> nullish e = false ->
  let first := [VObj {[ "errorCode" := errorCode; "statusCode" := statusCode ]};
                prop e "message"] in
  logError e statusCode errorCode w =
    match l LError first with
    | Throw x => (Throw x, {| w_ctx := w_ctx w; w_trace := w_trace w ++ [EvLog LError first] |})
    | Ok _ =>
        if js_ge statusCode (nz 500)
        then (match l LError [prop e "stack"] with Ok _ => Ok VUndef | Throw x => Throw x end,
              {| w_ctx := w_ctx w;
                 w_trace := w_trace w ++ [EvLog LError first; EvLog LError [prop e "stack"]] |})
        else (Ok VUndef, {| w_ctx := w_ctx w; w_trace := w_trace w ++ [EvLog LError first] |})
    end.
Proof.
  intros Hst Hl He first. unfold logError, log. mstep. rewrite Hst. cbn. rewrite Hl.
  rewrite !(get_prop_ok e) by exact He. mstep. fold first.
  destruct (l LError first) as [r|x]; [|reflexivity].
  destruct (js_ge statusCode (nz 500)); [|reflexivity].
  mstep. rewrite <- app_assoc. cbn [app].
  destruct (l LError [prop e "stack"]); reflexivity.
Qed.

Lemma logError_ctx (e statusCode errorCode : value) (w : World) :
  w_ctx (snd (logError e statusCode errorCode w)) = w_ctx w.
Proof.
  unfold logError, log. mstep.
  destruct (state (w_ctx w)) as [st|]; cbn; [|reflexivity].
  destruct (logger st) as [l|]; cbn; [|reflexivity].
  destruct (get_prop e "message"); cbn; [|reflexivity].
  destruct (l LError _); cbn; [|reflexivity].
  destruct (js_ge statusCode (nz 500)); cbn; [|reflexivity].
  destruct (get_prop e "stack"); cbn; [|reflexivity].
  destruct (l LError _); reflexivity.
Qed.

Lemma logError_trace (e statusCode errorCode : value) (w : World) :
  exists evs, w_trace (snd (logError e statusCode errorCode w)) = w_trace w ++ evs
              /\ forallb is_log evs = true.
Proof.
  unfold logError, log. mstep.
  destruct (state (w_ctx w)) as [st|]; cbn; [|exists []; by rewrite app_nil_r].
  destruct (logger st) as [l|]; cbn; [|exists []; by rewrite app_nil_r].
  destruct (get_prop e "message") as [m|]; cbn; [|exists []; by rewrite app_nil_r].
  destruct (l LError _); cbn; [|eexists [_]; split; [reflexivity|reflexivity]].
  destruct (js_ge statusCode (nz 500)); cbn;
    [|eexists [_]; split; [reflexivity|reflexivity]].
  destruct (get_prop e "stack") as [s|]; cbn;
    [|eexists [_]; split; [reflexivity|reflexivity]].
  destruct (l LError [s]); cbn; rewrite <- app_assoc;
    eexists [_; _]; split; reflexivity.
Qed.

Lemma resolved_instrumentation_trace (deps : ErrorHandlerDeps)
    (e statusCode errorCode : value) (w : World) :
  exists evs,
    w_trace (snd (resolved_instrumentation deps e statusCode errorCode w))
      = w_trace w ++ evs
    /\ forallb is_log evs = true.
Proof.
  unfold resolved_instrumentation. destruct (instrumentation deps) as [f|].
  - exists []. unfold run. destruct (f _ _ _ _). cbn. by rewrite app_nil_r.
  - apply logError_trace.
Qed.

(** The body [errorHandler] builds for the failure [e] and trace id [t]. *)
Lemma errorHandler_run (dependencies : option ErrorHandlerDeps) (next : Handler)
    (w : World) (e : value) (c1 : Ctx) (t : value) (c2 : Ctx) :
  next (w_ctx w) = (Throw e, c1) ->
  nullish e = false ->
  resolved_getTraceId (default no_error_deps dependencies) c1 = (Ok t, c2) ->
  let c3 :=
    set_body
      (VObj (<["traceId" := t]>
               (<["errorCode" := error_code e]>
                  (<["message" := error_message e]> (own_props (prop e "body"))))))
      (set_status (error_status e) c2) in
  errorHandler dependencies next w =
    (_ ← resolved_instrumentation (default no_error_deps dependencies) e
           (error_status e) (error_code e);
     mret VUndef)
      {| w_ctx := c3;
         w_trace := w_trace w ++ [EvNext; EvGetTraceId c1;
                                  EvInstrumentation e c3 (error_status e) (error_code e)] |}.
Proof.
  intros Hnext He Ht c3. unfold errorHandler. mstep. rewrite Hnext. cbn.
  rewrite !(get_prop_ok e) by exact He. rewrite !or_chain2. cbn. rewrite Ht. cbn.
  rewrite <- !app_assoc. cbn [app]. reflexivity.
Qed.

Lemma js_lt_not_ge (v : value) (n : number) : js_lt v n = true -> js_ge v n = false.
Proof. unfold js_lt, js_ge. destruct (num_lt (to_number v) n) as [[]|]; done. Qed.

(** C1. When the downstream continuation throws [e] (an object or a
    primitive, anything that can be read through) and [getTraceId(ctx)]
    returns [t], [errorHandler] sets [ctx.status] to [e.statusCode] if
    truthy, else 500, and [ctx.body] to an object that holds [message]
    ([e.message] if truthy, else 'Internal server error'), [errorCode]
    ([e.code] if truthy, else 0) and [traceId] = [t], and under every other
    key what [e.body] holds there: the three fields win over [e.body].
    This is the context [instrumentation] is called with, and with the
    default instrumentation it is the final context; by default [t] is
    [ctx.state.traceId]. *)
Theorem errorHandler_sets_status_and_body
    (dependencies : option ErrorHandlerDeps) (next : Handler) (w : World)
    (e : value) (c1 : Ctx) (t : value) (c2 : Ctx) :
  next (w_ctx w) = (Throw e, c1) ->
  nullish e = false ->
  resolved_getTraceId (default no_error_deps dependencies) c1 = (Ok t, c2) ->
  let deps := default no_error_deps dependencies in
  let final := snd (errorHandler dependencies next w) in
  exists (c3 : Ctx) (o : gmap string value),
    EvInstrumentation e c3 (error_status e) (error_code e) ∈ w_trace final /\
    status c3 = (if truthy (prop e "statusCode") then prop e "statusCode" else num 500) /\
    body c3 = VObj o /\
    o !! "message" = Some (if truthy (prop e "message") then prop e "message"
                           else VStr "Internal server error") /\
    o !! "errorCode" = Some (if truthy (prop e "code") then prop e "code" else num 0) /\
    o !! "traceId" = Some t /\
    (forall k, k <> "message" -> k <> "errorCode" -> k <> "traceId" ->
               o !! k = own_props (prop e "body") !! k) /\
    (instrumentation deps = None -> w_ctx final = c3) /\
    (forall f, instrumentation deps = Some f ->
               w_ctx final = snd (f e (error_status e) (error_code e) c3)) /\
    (getTraceId deps = None ->
       exists st, state c1 = Some st /\ t = traceId st /\ c2 = c1).
Proof.
  intros Hnext He Ht deps final.
  pose proof (errorHandler_run dependencies next w e c1 t c2 Hnext He Ht) as Hrun.
  cbv zeta in Hrun. fold deps in Hrun.
  set (c3 := set_body _ _) in Hrun.
  exists c3, (<["traceId" := t]>
                (<["errorCode" := error_code e]>
                   (<["message" := error_message e]> (own_props (prop e "body"))))).
  split.
  { subst final. rewrite Hrun. unfold mbind, M_bind.
    destruct (resolved_instrumentation_trace deps e (error_status e) (error_code e)
                {| w_ctx := c3;
                   w_trace := w_trace w ++ [EvNext; EvGetTraceId c1;
                      EvInstrumentation e c3 (error_status e) (error_code e)] |})
      as (evs & Htr & _).
    destruct (resolved_instrumentation deps e _ _ _) as [[r|x] w4]; cbn in Htr |- *;
      rewrite Htr; cbn; set_solver. }
  split; [reflexivity|]. split; [reflexivity|].
  split; [by rewrite lookup_insert_ne, lookup_insert_ne, lookup_insert_eq|].
  split; [by rewrite lookup_insert_ne, lookup_insert_eq|].
  split; [by rewrite lookup_insert_eq|].
  split; [intros k Hm Hc Hi; by rewrite !lookup_insert_ne|].
  split.
  { intros Hnone. subst final. rewrite Hrun. unfold mbind, M_bind.
    unfold resolved_instrumentation. rewrite Hnone.
    pose proof (logError_ctx e (error_status e) (error_code e)
                  {| w_ctx := c3;
                     w_trace := w_trace w ++ [EvNext; EvGetTraceId c1;
                        EvInstrumentation e c3 (error_status e) (error_code e)] |}) as Hc.
    destruct (logError e _ _ _) as [[r|x] w4]; exact Hc. }
  split.
  { intros f Hf. subst final. rewrite Hrun. unfold mbind, M_bind.
    unfold resolved_instrumentation. rewrite Hf. unfold run. cbn.
    destruct (f e _ _ c3) as [[r|x] c4]; reflexivity. }
  intros Hnone. unfold resolved_getTraceId in Ht. fold deps in Ht. rewrite Hnone in Ht.
  cbn in Ht. unfold default_getTraceId in Ht.
  destruct (state c1) as [st|]; [|discriminate].
  exists st. by simplify_eq.
Qed.

(** C5. When the downstream continuation throws [e] (and
    [getTraceId(ctx)] returns), [errorHandler] calls [instrumentation]
    exactly once, with [(e, ctx, status, errorCode)], on a context whose
    [status] and [body] are already set. If that call returns, the stage
    returns normally: the failure is absorbed. If that call throws [x],
    the stage throws [x], and the context is the one the call left, which
    it received with [status] and [body] set (the default
    instrumentation leaves it as received). *)
Theorem errorHandler_absorbs_failure
    (dependencies : option ErrorHandlerDeps) (next : Handler) (w : World)
    (e : value) (c1 : Ctx) (t : value) (c2 : Ctx) :
  next (w_ctx w) = (Throw e, c1) ->
  nullish e = false ->
  resolved_getTraceId (default no_error_deps dependencies) c1 = (Ok t, c2) ->
  let deps := default no_error_deps dependencies in
  let final := errorHandler dependencies next w in
  exists (c3 : Ctx) (evs : list Event),
    let called :=
      {| w_ctx := c3;
         w_trace := w_trace w ++ [EvNext; EvGetTraceId c1;
                                  EvInstrumentation e c3 (error_status e) (error_code e)] |} in
    status c3 = error_status e /\
    (exists o, body c3 = VObj o /\ o !! "message" = Some (error_message e)
               /\ o !! "errorCode" = Some (error_code e) /\ o !! "traceId" = Some t) /\
    w_trace (snd final) = w_trace called ++ evs /\
    filter (fun ev => is_instrumentation ev = true) (w_trace (snd final)) =
      filter (fun ev => is_instrumentation ev = true) (w_trace w)
        ++ [EvInstrumentation e c3 (error_status e) (error_code e)] /\
    (forall r w4,
       resolved_instrumentation deps e (error_status e) (error_code e) called = (Ok r, w4) ->
       final = (Ok VUndef, w4)) /\
    (forall x w4,
       resolved_instrumentation deps e (error_status e) (error_code e) called = (Throw x, w4) ->
       final = (Throw x, w4)) /\
    (forall f x c4,
       instrumentation deps = Some f ->
       f e (error_status e) (error_code e) c3 = (Throw x, c4) ->
       final = (Throw x, {| w_ctx := c4; w_trace := w_trace called |})) /\
    (instrumentation deps = None -> w_ctx (snd final) = c3).
Proof.
  intros Hnext He Ht deps final.
  pose proof (errorHandler_run dependencies next w e c1 t c2 Hnext He Ht) as Hrun.
  cbv zeta in Hrun. fold deps in Hrun. fold final in Hrun.
  set (c3 := set_body _ _) in Hrun.
  set (called := {| w_ctx := c3; w_trace := _ |}) in Hrun.
  destruct (resolved_instrumentation_trace deps e (error_status e) (error_code e) called)
    as (evs & Htr & Hlog).
  exists c3, evs. cbv zeta. fold called.
  split; [reflexivity|].
  split.
  { eexists. split; [reflexivity|].
    split; [by rewrite lookup_insert_ne, lookup_insert_ne, lookup_insert_eq|].
    split; [by rewrite lookup_insert_ne, lookup_insert_eq|].
    by rewrite lookup_insert_eq. }
  assert (Hfinal : w_trace (snd final) = w_trace called ++ evs).
  { rewrite Hrun. unfold mbind, M_bind.
    destruct (resolved_instrumentation deps e _ _ called) as [[r|x] w4]; exact Htr. }
  split; [exact Hfinal|].
  split.
  { rewrite Hfinal. subst called. cbn [w_trace].
    rewrite !filter_app.
    assert (Hnone : filter (fun ev => is_instrumentation ev = true) evs = []).
    { clear -Hlog. induction evs as [|ev evs IH]; [reflexivity|].
      cbn in Hlog. apply andb_prop in Hlog as [Hev Hrest].
      rewrite filter_cons. destruct ev; try discriminate. cbn.
      rewrite decide_False by discriminate. auto. }
    rewrite Hnone, app_nil_r. reflexivity. }
  split.
  { intros r w4 Hi. rewrite Hrun. unfold mbind, M_bind. rewrite Hi. reflexivity. }
  split.
  { intros x w4 Hi. rewrite Hrun. unfold mbind, M_bind. rewrite Hi. reflexivity. }
  split.
  { intros f x c4 Hf Hthrow. rewrite Hrun. unfold mbind, M_bind.
    unfold resolved_instrumentation. rewrite Hf. unfold run. cbn.
    rewrite Hthrow. reflexivity. }
  intros Hnone. rewrite Hrun. unfold mbind, M_bind.
  unfold resolved_instrumentation. rewrite Hnone.
  pose proof (logError_ctx e (error_status e) (error_code e) called) as Hc.
  destruct (logError e _ _ called) as [[r|x] w4]; exact Hc.
Qed.

(** C3. [setErrorResponse] sets [ctx.status] to the first truthy of
    [e.statusCode], [e.status], [e.code], else 500; [errorHandler]
    consults [e.statusCode] only, else 500. Hence for a failure with a
    falsy [statusCode] and a truthy [status], [errorHandler] yields 500
    and [setErrorResponse] yields [e.status]. *)
Theorem status_resolution_asymmetry
    (dependencies : option ErrorHandlerDeps) (next : Handler) (w : World)
    (e : value) (c1 : Ctx) (t : value) (c2 : Ctx)
    (lg : option Logger) (w' : World) (r1 r2 : value) :
  next (w_ctx w) = (Throw e, c1) ->
  nullish e = false ->
  resolved_getTraceId (default no_error_deps dependencies) c1 = (Ok t, c2) ->
  default disabledLogger lg LError [prop e "message"] = Ok r1 ->
  default disabledLogger lg LDebug [prop e "stack"] = Ok r2 ->
  let by_helper := status (w_ctx (snd (setErrorResponse e lg w'))) in
  exists (c3 : Ctx) (by_stage : value),
    EvInstrumentation e c3 by_stage (error_code e)
      ∈ w_trace (snd (errorHandler dependencies next w)) /\
    status c3 = by_stage /\
    by_helper = (if truthy (prop e "statusCode") then prop e "statusCode"
                 else if truthy (prop e "status") then prop e "status"
                 else if truthy (prop e "code") then prop e "code"
                 else num 500) /\
    by_stage = (if truthy (prop e "statusCode") then prop e "statusCode" else num 500) /\
    (truthy (prop e "statusCode") = false -> truthy (prop e "status") = true ->
     by_stage = num 500 /\ by_helper = prop e "status").
Proof.
  intros Hnext He Ht H1 H2 by_helper.
  pose proof (errorHandler_run dependencies next w e c1 t c2 Hnext He Ht) as Hrun.
  cbv zeta in Hrun. set (c3 := set_body _ _) in Hrun.
  set (called := {| w_ctx := c3; w_trace := _ |}) in Hrun.
  assert (Hh : by_helper =
               js_or (js_or (js_or (prop e "statusCode") (prop e "status"))
                        (prop e "code")) (num 500)).
  { subst by_helper. by rewrite (setErrorResponse_run e lg w' r1 r2 He H1 H2). }
  exists c3, (error_status e). split.
  { rewrite Hrun. unfold mbind, M_bind.
    destruct (resolved_instrumentation_trace (default no_error_deps dependencies) e
                (error_status e) (error_code e) called) as (evs & Htr & _).
    destruct (resolved_instrumentation _ e _ _ called) as [[r|x] w4]; cbn in Htr |- *;
      rewrite Htr; subst called; cbn; set_solver. }
  split; [reflexivity|].
  split.
  { rewrite Hh. unfold js_or.
    destruct (truthy (prop e "statusCode")) eqn:E1; cbn; rewrite ?E1; [done|].
    destruct (truthy (prop e "status")) eqn:E2; cbn; rewrite ?E2; [done|].
    destruct (truthy (prop e "code")) eqn:E3; reflexivity. }
  split; [reflexivity|].
  intros E1 E2. unfold error_status. rewrite Hh. unfold js_or.
  rewrite E1. cbn. rewrite E2. cbn. by rewrite E2.
Qed.

(** C2, as amended. Whenever the message [setErrorResponse] resolves is
    an object carrying a truthy [message] field, that nested field (one
    level) is what appears as the body's [message]; otherwise the body's
    [message] is the resolved message itself. So the body's [message] is an
    object only when the resolved message is an object without a truthy
    [message] field, or one whose [message] field is itself an object. *)
Theorem setErrorResponse_unwraps_one_level
    (e : value) (lg : option Logger) (w : World) (r1 r2 : value) :
  nullish e = false ->
  default disabledLogger lg LError [prop e "message"] = Ok r1 ->
  default disabledLogger lg LDebug [prop e "stack"] = Ok r2 ->
  let m := resolved_message e in
  let c := w_ctx (snd (setErrorResponse e lg w)) in
  (is_object m = true -> truthy (prop m "message") = true ->
   body_message c = Some (prop m "message")) /\
  (is_object m && truthy (prop m "message") = false -> body_message c = Some m) /\
  (forall x, body_message c = Some x -> is_object x = true ->
     is_object m = true /\
     (truthy (prop m "message") = false \/ is_object (prop m "message") = true)).
Proof.
  intros He H1 H2 m c.
  assert (Hc : body_message c =
               Some (if is_object m && truthy (prop m "message")
                     then prop m "message" else m)).
  { subst c. rewrite (setErrorResponse_run e lg w r1 r2 He H1 H2).
    unfold body_message. cbn. by rewrite lookup_singleton_eq. }
  split; [intros Ho Ht; by rewrite Hc, Ho, Ht|].
  split; [intros Hf; by rewrite Hc, Hf|].
  intros x Hx Hobj. rewrite Hc in Hx. injection Hx as <-.
  destruct (is_object m) eqn:Ho; cbn in Hobj.
  - split; [reflexivity|].
    destruct (truthy (prop m "message")); [right; exact Hobj | left; reflexivity].
  - congruence.
Qed.

(** C4, as amended. [setErrorResponse] resolves the message as the first
    truthy of [e.error], [e.body], [e.message], else 'Internal server
    error', and sets [ctx.body] to an object whose only key is [message];
    if the resolved message is an object with a non-empty [message]
    string, the body's [message] is that inner string; if it is not an
    object, the body's [message] is the resolved message. *)
Theorem setErrorResponse_message
    (e : value) (lg : option Logger) (w : World) (r1 r2 : value) :
  nullish e = false ->
  default disabledLogger lg LError [prop e "message"] = Ok r1 ->
  default disabledLogger lg LDebug [prop e "stack"] = Ok r2 ->
  let m := if truthy (prop e "error") then prop e "error"
           else if truthy (prop e "body") then prop e "body"
           else if truthy (prop e "message") then prop e "message"
           else VStr "Internal server error" in
  exists x,
    body (w_ctx (snd (setErrorResponse e lg w))) = VObj {[ "message" := x ]} /\
    (forall o s, m = VObj o -> o !! "message" = Some (VStr s) -> s <> EmptyString -> x = VStr s) /\
    (is_object m = false -> x = m).
Proof.
  intros He H1 H2 m.
  assert (Hm : resolved_message e = m).
  { subst m. unfold resolved_message, js_or.
    destruct (truthy (prop e "error")) eqn:E1; cbn; rewrite ?E1; [done|].
    destruct (truthy (prop e "body")) eqn:E2; cbn; rewrite ?E2; [done|].
    destruct (truthy (prop e "message")) eqn:E3; reflexivity. }
  rewrite (setErrorResponse_run e lg w r1 r2 He H1 H2). cbn [snd w_ctx set_body body].
  rewrite Hm. eexists. split; [reflexivity|]. split.
  - intros o s Ho Hs Hne. rewrite Ho. cbn. unfold prop. cbn. rewrite Hs. cbn.
    destruct (String.eqb_spec s EmptyString); [contradiction|reflexivity].
  - intros Hf. by rewrite Hf.
Qed.

(** C6. With a logger in [ctx.state], for every failure [e]: when
    [statusCode < 500], [logError] makes exactly one log call, at error
    level, with the fields [{errorCode, statusCode}] and the text
    [e.message]; when [statusCode >= 500] (and that first call returns),
    it makes exactly two, both at error level, the second with [e.stack]. *)
Theorem logError_error_calls
    (e statusCode errorCode : value) (w : World) (st : State) (l : Logger) :
  state (w_ctx w) = Some st -> logger st = Some l -> nullish e = false ->
  let first := [VObj {[ "errorCode" := errorCode; "statusCode" := statusCode ]};
                prop e "message"] in
  let after := w_trace (snd (logError e statusCode errorCode w)) in
  (js_lt statusCode (nz 500) = true -> after = w_trace w ++ [EvLog LError first]) /\
  (js_ge statusCode (nz 500) = true ->
   forall r, l LError first = Ok r ->
   after = w_trace w ++ [EvLog LError first; EvLog LError [prop e "stack"]]).
Proof.
  intros Hst Hl He first after. subst after.
  rewrite (logError_run e statusCode errorCode w st l Hst Hl He). cbv zeta. fold first.
  split.
  - intros Hlt. rewrite (js_lt_not_ge _ _ Hlt). by destruct (l LError first).
  - intros Hge r Hr. by rewrite Hr, Hge.
Qed.

(** C9. [useReturnValue(fn)] calls [fn(ctx)]. If it returns [undefined],
    the stage sets [ctx.status = 204] and leaves [ctx.body] as it was;
    otherwise it sets [ctx.status = 200] and [ctx.body] to the result. In
    both cases it then calls the downstream continuation exactly once, on
    that context, and ends as that call ends. If [fn] throws, the stage
    throws the same value, the continuation is not called and the context
    is as [fn] left it. *)
Theorem useReturnValue_sets_response (fn next : Handler) (w : World) :
  let final := useReturnValue fn next w in
  (forall v c1, fn (w_ctx w) = (Ok v, c1) ->
     exists c2,
       final = (fst (next c2),
                {| w_ctx := snd (next c2);
                   w_trace := w_trace w ++ [EvFn (w_ctx w); EvNext] |}) /\
       (v = VUndef -> status c2 = num 204 /\ body c2 = body c1) /\
       (v <> VUndef -> status c2 = num 200 /\ body c2 = v) /\
       method c2 = method c1 /\ url c2 = url c1 /\ state c2 = state c1) /\
  (forall e c1, fn (w_ctx w) = (Throw e, c1) ->
     final = (Throw e, {| w_ctx := c1; w_trace := w_trace w ++ [EvFn (w_ctx w)] |})).
Proof.
  intros final. subst final. unfold useReturnValue. split.
  - intros v c1 Hfn. mstep. rewrite Hfn. cbn.
    exists (match v with
            | VUndef => set_status (num 204) c1
            | _ => set_body v (set_status (num 200) c1)
            end).
    destruct v as [| |b|n|s|o]; cbn;
      (split; [destruct (next _) as [r c]; cbn; rewrite <- app_assoc; reflexivity|]);
      repeat split; cbn; congruence.
  - intros e c1 Hfn. mstep. rewrite Hfn. reflexivity.
Qed.

(** *** The request profiler *)

Lemma quiet_ret {A} (a : A) : quiet (mret a).
Proof. intros w. exists []. by rewrite app_nil_r. Qed.

Lemma quiet_lift {A} (r : outcome A) : quiet (lift r).
Proof. intros w. exists []. by rewrite app_nil_r. Qed.

Lemma quiet_bind {A B} (m : M A) (f : A -> M B) :
  quiet m -> (forall a, quiet (f a)) -> quiet (m ≫= f).
Proof.
  intros Hm Hf w. unfold mbind, M_bind.
  destruct (Hm w) as (evs1 & H1 & Hq1).
  destruct (m w) as [[a|x] w1]; cbn in H1.
  - destruct (Hf a w1) as (evs2 & H2 & Hq2).
    exists (evs1 ++ evs2). rewrite H2, H1, app_assoc. split; [reflexivity|].
    unfold stage_calls in *. by rewrite filter_app, Hq1, Hq2.
  - exists evs1. auto.
Qed.

Lemma quiet_run {A} (h : Ctx -> outcome A * Ctx) : quiet (run h).
Proof. intros w. exists []. unfold run. destruct (h _). cbn. by rewrite app_nil_r. Qed.

Lemma quiet_read_ctx : quiet read_ctx.
Proof. intros w. exists []. by rewrite app_nil_r. Qed.

Lemma quiet_modify_ctx (f : Ctx -> Ctx) : quiet (modify_ctx f).
Proof. intros w. exists []. cbn. by rewrite app_nil_r. Qed.

Lemma quiet_emit (ev : Ctx -> Event) :
  (forall c, is_stage_call (ev c) = false) -> quiet (emit ev).
Proof.
  intros Hev w. exists [ev (w_ctx w)]. split; [reflexivity|].
  unfold stage_calls. rewrite filter_cons, decide_False; [reflexivity|].
  rewrite Hev. discriminate.
Qed.

Lemma quiet_read_state : quiet read_state.
Proof.
  apply quiet_bind; [apply quiet_read_ctx|]. intros c.
  destruct (state c); [apply quiet_ret | apply quiet_lift].
Qed.

Lemma quiet_read_status : quiet read_status.
Proof. apply quiet_bind; [apply quiet_read_ctx|]. intros c. apply quiet_ret. Qed.

Lemma quiet_read_timing : quiet read_timing.
Proof.
  apply quiet_bind; [apply quiet_read_state|]. intros st.
  destruct (timing st); [apply quiet_ret | apply quiet_lift].
Qed.

Lemma quiet_log (l : option Logger) (lvl : Level) (args : M (list value)) :
  quiet args -> quiet (log l lvl args).
Proof.
  intros Ha. unfold log. destruct l as [f|]; [|apply quiet_lift].
  apply quiet_bind; [exact Ha|]. intros a.
  apply quiet_bind; [by apply quiet_emit|]. intros _. apply quiet_lift.
Qed.

Create HintDb quiet.
#[local] Hint Resolve quiet_ret quiet_lift quiet_run quiet_read_ctx quiet_modify_ctx
  quiet_read_state quiet_read_status quiet_read_timing quiet_log : quiet.

Ltac quiet_tac :=
  repeat first
    [ apply quiet_bind; [|intros ?]
    | apply quiet_emit; intros ?; reflexivity
    | match goal with |- quiet (match ?x with _ => _ end) => destruct x end
    | match goal with |- quiet (let '(_, _) := ?x in _) => destruct x end
    | solve [auto with quiet] ].

Lemma quiet_getLogger (deps : ProfilerDeps) : quiet (resolved_getLogger deps).
Proof. unfold resolved_getLogger. quiet_tac. Qed.

#[local] Hint Resolve quiet_getLogger : quiet.

Lemma quiet_requestStarted (deps : ProfilerDeps) : quiet (resolved_requestStarted deps).
Proof. unfold resolved_requestStarted. quiet_tac. Qed.

Lemma quiet_requestFinished (deps : ProfilerDeps) : quiet (resolved_requestFinished deps).
Proof. unfold resolved_requestFinished. quiet_tac. Qed.

Lemma quiet_requestSucceeded (deps : ProfilerDeps) : quiet (resolved_requestSucceeded deps).
Proof. unfold resolved_requestSucceeded. quiet_tac. Qed.

Lemma quiet_requestFailed (deps : ProfilerDeps) : quiet (resolved_requestFailed deps).
Proof. unfold resolved_requestFailed. quiet_tac. Qed.

Lemma quiet_calls {A} (m : M A) (w : World) :
  quiet m -> stage_calls (w_trace (snd (m w))) = stage_calls (w_trace w).
Proof.
  intros Hq. destruct (Hq w) as (evs & -> & Hevs).
  unfold stage_calls in *. by rewrite filter_app, Hevs, app_nil_r.
Qed.

Lemma stage_calls_snoc (t : list Event) (ev : Event) :
  is_stage_call ev = true -> stage_calls (t ++ [ev]) = stage_calls t ++ [ev].
Proof.
  intros Hev. unfold stage_calls. rewrite filter_app, filter_cons, decide_True by exact Hev.
  reflexivity.
Qed.

Section ProfilerRun.
Variables (dependencies : option ProfilerDeps) (next : Handler) (w : World).
Let deps := default no_profiler_deps dependencies.

Variables (r1 : value) (w1 : World).
Hypothesis started :
  resolved_requestStarted deps (calling EvRequestStarted (w_ctx w) (w_trace w)) = (Ok r1, w1).

Lemma requestProfiler_throws (e : value) (c2 : Ctx) :
  next (w_ctx w1) = (Throw e, c2) ->
  requestProfiler dependencies next w =
    (Throw e, {| w_ctx := c2; w_trace := w_trace w1 ++ [EvNext] |}).
Proof using started.
  intros Hnext. unfold requestProfiler, requestProfiler_stage. fold deps. mstep.
  unfold calling in started. rewrite started. cbn. rewrite Hnext. reflexivity.
Qed.

Variables (r2 : value) (c2 : Ctx).
Hypothesis continued : next (w_ctx w1) = (Ok r2, c2).

Variables (r3 : value) (w3 : World).
Hypothesis finished :
  resolved_requestFinished deps (calling EvRequestFinished c2 (w_trace w1 ++ [EvNext]))
    = (Ok r3, w3).

Lemma requestProfiler_run :
  requestProfiler dependencies next w =
    if js_ge (status (w_ctx w3)) (nz 400)
    then (_ ← resolved_requestFailed deps; mret VUndef)
           (calling EvRequestFailed (w_ctx w3) (w_trace w3))
    else (_ ← resolved_requestSucceeded deps; mret VUndef)
           (calling EvRequestSucceeded (w_ctx w3) (w_trace w3)).
Proof using started continued finished.
  unfold requestProfiler, requestProfiler_stage. fold deps. mstep.
  unfold calling in started, finished. rewrite started. cbn. rewrite continued. cbn.
  rewrite finished. cbn.
  destruct (js_ge (status (w_ctx w3)) (nz 400)); reflexivity.
Qed.

Lemma requestProfiler_calls :
  stage_calls (w_trace (snd (requestProfiler dependencies next w))) =
    stage_calls (w_trace w)
      ++ [EvRequestStarted (w_ctx w); EvNext; EvRequestFinished c2;
          if js_ge (status (w_ctx w3)) (nz 400)
          then EvRequestFailed (w_ctx w3) else EvRequestSucceeded (w_ctx w3)].
Proof using started continued finished.
  rewrite requestProfiler_run.
  assert (H1 : stage_calls (w_trace w1)
               = stage_calls (w_trace w) ++ [EvRequestStarted (w_ctx w)]).
  { pose proof (quiet_calls _ (calling EvRequestStarted (w_ctx w) (w_trace w))
                  (quiet_requestStarted deps)) as Hq.
    rewrite started in Hq. cbn in Hq. rewrite Hq. by apply stage_calls_snoc. }
  assert (H3 : stage_calls (w_trace w3)
               = stage_calls (w_trace w)
                   ++ [EvRequestStarted (w_ctx w); EvNext; EvRequestFinished c2]).
  { pose proof (quiet_calls _ (calling EvRequestFinished c2 (w_trace w1 ++ [EvNext]))
                  (quiet_requestFinished deps)) as Hq.
    rewrite finished in Hq. cbn in Hq. rewrite Hq.
    rewrite !stage_calls_snoc, H1, <- !app_assoc by reflexivity. reflexivity. }
  destruct (js_ge (status (w_ctx w3)) (nz 400)).
  - rewrite (quiet_calls (_ ← resolved_requestFailed deps; mret VUndef)).
    + cbn. rewrite stage_calls_snoc, H3, <- app_assoc by reflexivity. reflexivity.
    + apply quiet_bind; [apply quiet_requestFailed | intros ?; apply quiet_ret].
  - rewrite (quiet_calls (_ ← resolved_requestSucceeded deps; mret VUndef)).
    + cbn. rewrite stage_calls_snoc, H3, <- app_assoc by reflexivity. reflexivity.
    + apply quiet_bind; [apply quiet_requestSucceeded | intros ?; apply quiet_ret].
Qed.

End ProfilerRun.

Lemma nan_comparisons (v : value) (n : number) :
  to_number v = NNaN -> js_ge v n = false /\ js_lt v n = false.
Proof. intros Hv. unfold js_ge, js_lt. rewrite Hv. split; reflexivity. Qed.

Lemma ge_false_iff_lt (v : value) (z : Z) :
  to_number v <> NNaN -> js_ge v (nz z) = false <-> js_lt v (nz z) = true.
Proof.
  intros Hv. unfold js_ge, js_lt.
  destruct (to_number v) as [| | |q]; cbn; [contradiction|split; done..|].
  destruct (Qle_bool (inject_Z z) q); split; done.
Qed.

(** C7, as amended. In a run of [requestProfiler] in which
    [requestStarted], the downstream continuation and [requestFinished]
    return, the calls the stage makes are, in order: [requestStarted],
    the continuation, [requestFinished], and then exactly one of
    [requestFailed] / [requestSucceeded]: [requestFailed] iff the final
    [ctx.status >= 400] holds, [requestSucceeded] iff it does not. For a
    final status that converts to a number (not [NaN]) that is: iff
    [ctx.status < 400]. *)
Theorem requestProfiler_classifies
    (dependencies : option ProfilerDeps) (next : Handler) (w : World)
    (r1 : value) (w1 : World) (r2 : value) (c2 : Ctx) (r3 : value) (w3 : World) :
  let deps := default no_profiler_deps dependencies in
  resolved_requestStarted deps (calling EvRequestStarted (w_ctx w) (w_trace w)) = (Ok r1, w1) ->
  next (w_ctx w1) = (Ok r2, c2) ->
  resolved_requestFinished deps (calling EvRequestFinished c2 (w_trace w1 ++ [EvNext]))
    = (Ok r3, w3) ->
  let final_status := status (w_ctx w3) in
  exists outcome_call,
    stage_calls (w_trace (snd (requestProfiler dependencies next w))) =
      stage_calls (w_trace w)
        ++ [EvRequestStarted (w_ctx w); EvNext; EvRequestFinished c2; outcome_call] /\
    (outcome_call = EvRequestFailed (w_ctx w3) <-> js_ge final_status (nz 400) = true) /\
    (outcome_call = EvRequestSucceeded (w_ctx w3) <-> js_ge final_status (nz 400) = false) /\
    (to_number final_status <> NNaN ->
     (outcome_call = EvRequestSucceeded (w_ctx w3) <-> js_lt final_status (nz 400) = true)).
Proof.
  intros deps Hs Hn Hf final_status.
  exists (if js_ge final_status (nz 400)
          then EvRequestFailed (w_ctx w3) else EvRequestSucceeded (w_ctx w3)).
  split; [exact (requestProfiler_calls dependencies next w r1 w1 Hs r2 c2 Hn r3 w3 Hf)|].
  assert (Hiff : forall b : bool,
            ((if b then EvRequestFailed (w_ctx w3) else EvRequestSucceeded (w_ctx w3))
               = EvRequestFailed (w_ctx w3) <-> b = true) /\
            ((if b then EvRequestFailed (w_ctx w3) else EvRequestSucceeded (w_ctx w3))
               = EvRequestSucceeded (w_ctx w3) <-> b = false)).
  { intros []; repeat split; intros; congruence. }
  destruct (Hiff (js_ge final_status (nz 400))) as [Hfail Hsucc].
  split; [exact Hfail|]. split; [exact Hsucc|].
  intros Hnum. rewrite Hsucc. by apply ge_false_iff_lt.
Qed.

(** C8. If [requestStarted] has returned and the downstream continuation
    throws [e], the [requestProfiler] stage throws [e] itself, with the
    context as the continuation left it, and has called only
    [requestStarted] and the continuation: none of [requestFinished],
    [requestFailed], [requestSucceeded]. *)
Theorem requestProfiler_propagates
    (dependencies : option ProfilerDeps) (next : Handler) (w : World)
    (r1 : value) (w1 : World) (e : value) (c2 : Ctx) :
  let deps := default no_profiler_deps dependencies in
  resolved_requestStarted deps (calling EvRequestStarted (w_ctx w) (w_trace w)) = (Ok r1, w1) ->
  next (w_ctx w1) = (Throw e, c2) ->
  let final := requestProfiler dependencies next w in
  final = (Throw e, {| w_ctx := c2; w_trace := w_trace w1 ++ [EvNext] |}) /\
  stage_calls (w_trace (snd final)) =
    stage_calls (w_trace w) ++ [EvRequestStarted (w_ctx w); EvNext].
Proof.
  intros deps Hs Hn final. subst final.
  rewrite (requestProfiler_throws dependencies next w r1 w1 Hs e c2 Hn).
  split; [reflexivity|]. cbn.
  pose proof (quiet_calls _ (calling EvRequestStarted (w_ctx w) (w_trace w))
                (quiet_requestStarted deps)) as Hq.
  rewrite Hs in Hq. cbn in Hq.
  rewrite !stage_calls_snoc, Hq, stage_calls_snoc, <- app_assoc by reflexivity.
  reflexivity.
Qed.

(** C10. Success is the default branch of the classification: whenever
    the comparison [ctx.status >= 400] does not hold for the final status,
    the stage calls [requestSucceeded] and not [requestFailed]. That
    covers every status that converts to [NaN], for which [>= 400] and
    [< 400] are both false: [undefined] and plain objects among them. *)
Theorem requestProfiler_success_is_default
    (dependencies : option ProfilerDeps) (next : Handler) (w : World)
    (r1 : value) (w1 : World) (r2 : value) (c2 : Ctx) (r3 : value) (w3 : World) :
  let deps := default no_profiler_deps dependencies in
  resolved_requestStarted deps (calling EvRequestStarted (w_ctx w) (w_trace w)) = (Ok r1, w1) ->
  next (w_ctx w1) = (Ok r2, c2) ->
  resolved_requestFinished deps (calling EvRequestFinished c2 (w_trace w1 ++ [EvNext]))
    = (Ok r3, w3) ->
  let final_status := status (w_ctx w3) in
  (js_ge final_status (nz 400) = false ->
   stage_calls (w_trace (snd (requestProfiler dependencies next w))) =
     stage_calls (w_trace w)
       ++ [EvRequestStarted (w_ctx w); EvNext; EvRequestFinished c2;
           EvRequestSucceeded (w_ctx w3)]) /\
  (to_number final_status = NNaN ->
   js_ge final_status (nz 400) = false /\ js_lt final_status (nz 400) = false) /\
  to_number VUndef = NNaN /\
  (forall o, to_number (VObj o) = NNaN).
Proof.
  intros deps Hs Hn Hf final_status. split.
  - intros Hge.
    rewrite (requestProfiler_calls dependencies next w r1 w1 Hs r2 c2 Hn r3 w3 Hf).
    fold final_status. by rewrite Hge.
  - split; [apply nan_comparisons|]. split; reflexivity.
Qed.

(** ** Further properties of the error stage *)

Lemma well_behaved_call (l : Logger) (lvl : Level) (args : list value) :
  well_behaved l -> exists r, l lvl args = Ok r.
Proof. intros Hl. apply Hl. Qed.

Lemma ctx_logger_responded (e t : value) (c : Ctx) :
  ctx_logger (responded e t c) = ctx_logger c.
Proof. reflexivity. Qed.

Lemma logError_no_logger (e statusCode errorCode : value) (w : World) :
  ctx_logger (w_ctx w) = None ->
  logError e statusCode errorCode w = (Throw (TypeError "undefined"), w).
Proof.
  unfold ctx_logger, logError, log. intros Hl. mstep.
  destruct (state (w_ctx w)) as [st|]; cbn; [|reflexivity].
  rewrite Hl. reflexivity.
Qed.

Lemma logError_logged (e statusCode errorCode : value) (w : World) (l : Logger) :
  ctx_logger (w_ctx w) = Some l -> well_behaved l -> nullish e = false ->
  logError e statusCode errorCode w =
    (Ok VUndef,
     {| w_ctx := w_ctx w;
        w_trace := w_trace w
          ++ EvLog LError (error_entry e statusCode errorCode)
             :: (if js_ge statusCode (nz 500) then [EvLog LError [prop e "stack"]]
                 else []) |}).
Proof.
  unfold ctx_logger. intros Hl Hwb He.
  destruct (state (w_ctx w)) as [st|] eqn:Hst; [|discriminate].
  rewrite (logError_run e statusCode errorCode w st l Hst Hl He). cbv zeta.
  fold (error_entry e statusCode errorCode).
  destruct (Hwb LError (error_entry e statusCode errorCode)) as [r1 ->].
  destruct (js_ge statusCode (nz 500)); [|reflexivity].
  destruct (Hwb LError [prop e "stack"]) as [r2 ->]. reflexivity.
Qed.

(** X1. When the downstream continuation returns, [errorHandler]
    resolves to [undefined] whatever the continuation returned, leaves the
    context as the continuation left it, and calls neither [getTraceId]
    nor [instrumentation]. *)
Theorem errorHandler_success
    (dependencies : option ErrorHandlerDeps) (next : Handler) (w : World)
    (r : value) (c1 : Ctx) :
  next (w_ctx w) = (Ok r, c1) ->
  errorHandler dependencies next w =
    (Ok VUndef, {| w_ctx := c1; w_trace := w_trace w ++ [EvNext] |}).
Proof. intros Hnext. unfold errorHandler. mstep. rewrite Hnext. reflexivity. Qed.

(** X2. A rejection with [undefined] or [null] is not absorbed: reading
    [e.message] raises a [TypeError], which the stage throws, with the
    context as the continuation left it and without calling
    [getTraceId] or [instrumentation]. *)
Theorem errorHandler_nullish_failure
    (dependencies : option ErrorHandlerDeps) (next : Handler) (w : World)
    (e : value) (c1 : Ctx) :
  next (w_ctx w) = (Throw e, c1) ->
  nullish e = true ->
  exists what,
    errorHandler dependencies next w =
      (Throw (TypeError what), {| w_ctx := c1; w_trace := w_trace w ++ [EvNext] |}).
Proof.
  intros Hnext He. unfold errorHandler. mstep. rewrite Hnext. cbn.
  unfold or_else. mstep.
  destruct e; try discriminate; cbn; eexists; reflexivity.
Qed.

(** X3. [getTraceId] is called before anything is written: when it
    throws, the stage throws the same value, [ctx.status] and [ctx.body]
    are not set (the context is as [getTraceId] left it) and
    [instrumentation] is not called. With the default [getTraceId] this
    happens on a context without [state]. *)
Theorem errorHandler_getTraceId_failure
    (dependencies : option ErrorHandlerDeps) (next : Handler) (w : World)
    (e : value) (c1 : Ctx) :
  next (w_ctx w) = (Throw e, c1) ->
  nullish e = false ->
  let deps := default no_error_deps dependencies in
  (forall x c2,
     resolved_getTraceId deps c1 = (Throw x, c2) ->
     errorHandler dependencies next w =
       (Throw x, {| w_ctx := c2; w_trace := w_trace w ++ [EvNext; EvGetTraceId c1] |})) /\
  (getTraceId deps = None -> state c1 = None ->
   errorHandler dependencies next w =
     (Throw (TypeError "undefined"),
      {| w_ctx := c1; w_trace := w_trace w ++ [EvNext; EvGetTraceId c1] |})).
Proof.
  intros Hnext He deps.
  assert (Hthrow : forall x c2,
            resolved_getTraceId deps c1 = (Throw x, c2) ->
            errorHandler dependencies next w =
              (Throw x, {| w_ctx := c2;
                           w_trace := w_trace w ++ [EvNext; EvGetTraceId c1] |})).
  { intros x c2 Ht. unfold errorHandler. fold deps. mstep. rewrite Hnext. cbn.
    rewrite !(get_prop_ok e) by exact He. rewrite !or_chain2. cbn. rewrite Ht. cbn.
    rewrite <- app_assoc. reflexivity. }
  split; [exact Hthrow|].
  intros Hnone Hstate. apply Hthrow.
  unfold resolved_getTraceId. rewrite Hnone. cbn. unfold default_getTraceId.
  rewrite Hstate. reflexivity.
Qed.

(** X4. With the default instrumentation and a logger in [ctx.state]
    whose methods return, a failure is answered and logged and the stage
    returns: after [next], [getTraceId] and the write of status and body,
    one error entry [({errorCode, statusCode}, e.message)] is logged, and
    one more with [e.stack] exactly when the resolved status is [>= 500]. *)
Theorem errorHandler_default_logging
    (dependencies : option ErrorHandlerDeps) (next : Handler) (w : World)
    (e : value) (c1 : Ctx) (t : value) (c2 : Ctx) (l : Logger) :
  instrumentation (default no_error_deps dependencies) = None ->
  next (w_ctx w) = (Throw e, c1) ->
  nullish e = false ->
  resolved_getTraceId (default no_error_deps dependencies) c1 = (Ok t, c2) ->
  ctx_logger c2 = Some l ->
  well_behaved l ->
  let c3 := responded e t c2 in
  errorHandler dependencies next w =
    (Ok VUndef,
     {| w_ctx := c3;
        w_trace := w_trace w
          ++ [EvNext; EvGetTraceId c1;
              EvInstrumentation e c3 (error_status e) (error_code e);
              EvLog LError (error_entry e (error_status e) (error_code e))]
          ++ (if js_ge (error_status e) (nz 500) then [EvLog LError [prop e "stack"]]
              else []) |}).
Proof.
  intros Hnone Hnext He Ht Hl Hwb c3.
  rewrite (errorHandler_run dependencies next w e c1 t c2 Hnext He Ht).
  cbv zeta. fold (envelope e t). fold (responded e t c2). fold c3.
  unfold resolved_instrumentation. rewrite Hnone. unfold mbind, M_bind.
  rewrite (logError_logged e (error_status e) (error_code e) _ l); [|exact Hl|exact Hwb|exact He].
  cbn. rewrite <- !app_assoc. reflexivity.
Qed.

(** X5. With the default instrumentation and no logger in [ctx.state],
    the stage writes status and body and then throws the [TypeError] of
    the read through the missing logger; nothing is logged. *)
Theorem errorHandler_missing_logger
    (dependencies : option ErrorHandlerDeps) (next : Handler) (w : World)
    (e : value) (c1 : Ctx) (t : value) (c2 : Ctx) :
  instrumentation (default no_error_deps dependencies) = None ->
  next (w_ctx w) = (Throw e, c1) ->
  nullish e = false ->
  resolved_getTraceId (default no_error_deps dependencies) c1 = (Ok t, c2) ->
  ctx_logger c2 = None ->
  let c3 := responded e t c2 in
  errorHandler dependencies next w =
    (Throw (TypeError "undefined"),
     {| w_ctx := c3;
        w_trace := w_trace w
          ++ [EvNext; EvGetTraceId c1;
              EvInstrumentation e c3 (error_status e) (error_code e)] |}).
Proof.
  intros Hnone Hnext He Ht Hl c3.
  rewrite (errorHandler_run dependencies next w e c1 t c2 Hnext He Ht).
  cbv zeta. fold (envelope e t). fold (responded e t c2). fold c3.
  unfold resolved_instrumentation. rewrite Hnone. unfold mbind, M_bind.
  rewrite logError_no_logger; [reflexivity | exact Hl].
Qed.

Lemma errorHandler_instrumented
    (dependencies : option ErrorHandlerDeps) (next : Handler) (w : World)
    (e : value) (c1 : Ctx) (t : value) (c2 : Ctx) :
  next (w_ctx w) = (Throw e, c1) ->
  nullish e = false ->
  resolved_getTraceId (default no_error_deps dependencies) c1 = (Ok t, c2) ->
  EvInstrumentation e (responded e t c2) (error_status e) (error_code e)
    ∈ w_trace (snd (errorHandler dependencies next w)).
Proof.
  intros Hnext He Ht.
  rewrite (errorHandler_run dependencies next w e c1 t c2 Hnext He Ht).
  cbv zeta. fold (envelope e t). fold (responded e t c2).
  set (called := {| w_ctx := responded e t c2; w_trace := _ |}).
  unfold mbind, M_bind.
  destruct (resolved_instrumentation_trace (default no_error_deps dependencies) e
              (error_status e) (error_code e) called) as (evs & Htr & _).
  destruct (resolved_instrumentation _ e _ _ called) as [[r|x] w4]; cbn in Htr |- *;
    rewrite Htr; subst called; cbn; set_solver.
Qed.

Lemma error_status_truthy (e : value) : truthy (error_status e) = true.
Proof. unfold error_status. by apply js_or_truthy. Qed.

Lemma error_message_truthy (e : value) : truthy (error_message e) = true.
Proof. unfold error_message. by apply js_or_truthy. Qed.

(** X6. A failure without a usable [statusCode], [code], [message] and
    [body] (a bare object, or a thrown string or number) is answered with
    status 500 and exactly the body
    [{message: 'Internal server error', errorCode: 0, traceId}]. *)
Theorem errorHandler_bare_failure
    (dependencies : option ErrorHandlerDeps) (next : Handler) (w : World)
    (e : value) (c1 : Ctx) (t : value) (c2 : Ctx) :
  next (w_ctx w) = (Throw e, c1) ->
  nullish e = false ->
  resolved_getTraceId (default no_error_deps dependencies) c1 = (Ok t, c2) ->
  truthy (prop e "statusCode") = false ->
  truthy (prop e "code") = false ->
  truthy (prop e "message") = false ->
  own_props (prop e "body") = ∅ ->
  exists c3,
    EvInstrumentation e c3 (num 500) (num 0)
      ∈ w_trace (snd (errorHandler dependencies next w)) /\
    status c3 = num 500 /\
    body c3 = VObj {[ "traceId" := t; "errorCode" := num 0;
                      "message" := VStr "Internal server error" ]}.
Proof.
  intros Hnext He Ht Hs Hc Hm Hb.
  pose proof (errorHandler_instrumented dependencies next w e c1 t c2 Hnext He Ht) as Hin.
  assert (Hst : error_status e = num 500) by (unfold error_status, js_or; by rewrite Hs).
  assert (Hco : error_code e = num 0) by (unfold error_code, js_or; by rewrite Hc).
  assert (Hme : error_message e = VStr "Internal server error")
    by (unfold error_message, js_or; by rewrite Hm).
  exists (responded e t c2). rewrite Hst, Hco in Hin.
  split; [exact Hin|]. split; [cbn; exact Hst|].
  cbn. unfold envelope. by rewrite Hb, Hco, Hme, insert_empty.
Qed.

(** X7. Whatever the failure holds, the status the error stage writes is
    truthy (never [undefined], [null], 0, [NaN] or the empty string) and so
    is the body's [message]; [method], [url] and [state] of the context
    are the ones [getTraceId] left. *)
Theorem errorHandler_response_invariants
    (dependencies : option ErrorHandlerDeps) (next : Handler) (w : World)
    (e : value) (c1 : Ctx) (t : value) (c2 : Ctx) :
  next (w_ctx w) = (Throw e, c1) ->
  nullish e = false ->
  resolved_getTraceId (default no_error_deps dependencies) c1 = (Ok t, c2) ->
  exists c3 st ec,
    EvInstrumentation e c3 st ec ∈ w_trace (snd (errorHandler dependencies next w)) /\
    status c3 = st /\ truthy st = true /\
    (exists m, body_message c3 = Some m /\ truthy m = true) /\
    method c3 = method c2 /\ url c3 = url c2 /\ state c3 = state c2.
Proof.
  intros Hnext He Ht.
  exists (responded e t c2), (error_status e), (error_code e).
  split; [exact (errorHandler_instrumented dependencies next w e c1 t c2 Hnext He Ht)|].
  split; [reflexivity|]. split; [apply error_status_truthy|].
  split; [|repeat split].
  exists (error_message e). split; [|apply error_message_truthy].
  unfold body_message. cbn.
  by rewrite lookup_insert_ne, lookup_insert_ne, lookup_insert_eq.
Qed.

(** ** Further properties of [setErrorResponse] *)

Lemma setErrorResponse_body_truthy (e : value) :
  truthy (if is_object (resolved_message e)
             && truthy (prop (resolved_message e) "message")
          then prop (resolved_message e) "message"
          else resolved_message e) = true.
Proof.
  destruct (is_object (resolved_message e)); cbn; [|apply resolved_message_truthy].
  destruct (truthy (prop (resolved_message e) "message")) eqn:Ht;
    [exact Ht | apply resolved_message_truthy].
Qed.

(** X8. [setErrorResponse] logs exactly two entries through the logger it
    is given, first [e.message] at error level, then [e.stack] at debug
    level; when both calls return it returns [undefined] and leaves
    [method], [url] and [state] of the context as they were. *)
Theorem setErrorResponse_logs_error_then_debug
    (e : value) (lg : option Logger) (w : World) (r1 r2 : value) :
  nullish e = false ->
  default disabledLogger lg LError [prop e "message"] = Ok r1 ->
  default disabledLogger lg LDebug [prop e "stack"] = Ok r2 ->
  let final := setErrorResponse e lg w in
  fst final = Ok VUndef /\
  w_trace (snd final) = w_trace w ++ [EvLog LError [prop e "message"];
                                      EvLog LDebug [prop e "stack"]] /\
  method (w_ctx (snd final)) = method (w_ctx w) /\
  url (w_ctx (snd final)) = url (w_ctx w) /\
  state (w_ctx (snd final)) = state (w_ctx w).
Proof.
  intros He H1 H2 final. subst final.
  rewrite (setErrorResponse_run e lg w r1 r2 He H1 H2). repeat split.
Qed.

(** X9. Called without a logger, [setErrorResponse] returns for every
    failure that is not [undefined] or [null], and the status and the
    body's [message] it writes are truthy: the response never lacks a
    status or a message. *)
Theorem setErrorResponse_never_empty (e : value) (w : World) :
  nullish e = false ->
  let final := setErrorResponse e None w in
  fst final = Ok VUndef /\
  truthy (status (w_ctx (snd final))) = true /\
  exists m, body (w_ctx (snd final)) = VObj {[ "message" := m ]} /\ truthy m = true.
Proof.
  intros He final. subst final.
  rewrite (setErrorResponse_run e None w VUndef VUndef He eq_refl eq_refl).
  split; [reflexivity|]. split; [cbn; by apply js_or_truthy|].
  eexists. split; [reflexivity|]. apply setErrorResponse_body_truthy.
Qed.

(** X10. When the logger throws, [setErrorResponse] throws the same value
    before it writes anything: the context is untouched, and after a
    failing [logger.error] the debug call is not made. *)
Theorem setErrorResponse_logger_failure
    (e : value) (lg : option Logger) (w : World) (x : value) :
  nullish e = false ->
  (default disabledLogger lg LError [prop e "message"] = Throw x ->
   setErrorResponse e lg w =
     (Throw x, {| w_ctx := w_ctx w;
                  w_trace := w_trace w ++ [EvLog LError [prop e "message"]] |})) /\
  (forall r1,
     default disabledLogger lg LError [prop e "message"] = Ok r1 ->
     default disabledLogger lg LDebug [prop e "stack"] = Throw x ->
     setErrorResponse e lg w =
       (Throw x, {| w_ctx := w_ctx w;
                    w_trace := w_trace w ++ [EvLog LError [prop e "message"];
                                             EvLog LDebug [prop e "stack"]] |})).
Proof.
  intros He. split.
  - intros H1. unfold setErrorResponse, log.
    rewrite !(get_prop_ok e) by exact He. mstep. rewrite H1. reflexivity.
  - intros r1 H1 H2. unfold setErrorResponse, log.
    rewrite !(get_prop_ok e) by exact He. mstep. rewrite H1. cbn. rewrite H2. cbn.
    rewrite <- app_assoc. reflexivity.
Qed.

(** X11. Given [undefined] or [null] as the failure, [setErrorResponse]
    throws a [TypeError] at its first read and does nothing else: no log
    call, no write to the context. *)
Theorem setErrorResponse_nullish (e : value) (lg : option Logger) (w : World) :
  nullish e = true ->
  exists what, setErrorResponse e lg w = (Throw (TypeError what), w).
Proof.
  intros He. unfold setErrorResponse, log. mstep.
  destruct e; try discriminate; cbn; eexists; reflexivity.
Qed.

(** X12. What [setErrorResponse] writes depends on the failure only: it
    overwrites whatever status and body the context had, so two contexts
    that agree on [method], [url] and [state] end up equal, and a second
    call with the same failure changes nothing. *)
Theorem setErrorResponse_overwrites
    (e : value) (lg : option Logger) (w w' : World) (r1 r2 : value) :
  nullish e = false ->
  default disabledLogger lg LError [prop e "message"] = Ok r1 ->
  default disabledLogger lg LDebug [prop e "stack"] = Ok r2 ->
  let once := w_ctx (snd (setErrorResponse e lg w)) in
  (method (w_ctx w') = method (w_ctx w) -> url (w_ctx w') = url (w_ctx w) ->
   state (w_ctx w') = state (w_ctx w) ->
   w_ctx (snd (setErrorResponse e lg w')) = once) /\
  w_ctx (snd (setErrorResponse e lg (snd (setErrorResponse e lg w)))) = once.
Proof.
  intros He H1 H2 once. subst once.
  rewrite !(setErrorResponse_run e lg _ r1 r2 He H1 H2). cbn [snd w_ctx]. split.
  - intros Hm Hu Hs. unfold set_body, set_status. cbn. by rewrite Hm, Hu, Hs.
  - reflexivity.
Qed.

(** X13. Where the two error paths agree: for a failure whose [error] and
    [body] are falsy and whose [message] is not an object, the body's
    [message] written by [setErrorResponse] is the one [errorHandler]
    writes; and when [statusCode] is truthy both write it as the status. *)
Theorem helper_agrees_with_stage
    (dependencies : option ErrorHandlerDeps) (next : Handler) (w : World)
    (e : value) (c1 : Ctx) (t : value) (c2 : Ctx)
    (lg : option Logger) (w' : World) (r1 r2 : value) :
  next (w_ctx w) = (Throw e, c1) ->
  nullish e = false ->
  resolved_getTraceId (default no_error_deps dependencies) c1 = (Ok t, c2) ->
  default disabledLogger lg LError [prop e "message"] = Ok r1 ->
  default disabledLogger lg LDebug [prop e "stack"] = Ok r2 ->
  let by_helper := w_ctx (snd (setErrorResponse e lg w')) in
  exists c3 st ec,
    EvInstrumentation e c3 st ec ∈ w_trace (snd (errorHandler dependencies next w)) /\
    (truthy (prop e "error") = false -> truthy (prop e "body") = false ->
     is_object (prop e "message") = false ->
     body_message by_helper = body_message c3) /\
    (truthy (prop e "statusCode") = true -> status by_helper = status c3).
Proof.
  intros Hnext He Ht H1 H2 by_helper.
  exists (responded e t c2), (error_status e), (error_code e).
  split; [exact (errorHandler_instrumented dependencies next w e c1 t c2 Hnext He Ht)|].
  subst by_helper. rewrite (setErrorResponse_run e lg w' r1 r2 He H1 H2).
  unfold body_message. cbn [snd w_ctx set_body set_status body status responded envelope].
  rewrite lookup_singleton_eq, lookup_insert_ne, lookup_insert_ne, lookup_insert_eq by done.
  split.
  - intros Her Hbo Hob.
    assert (Hm : resolved_message e = error_message e).
    { unfold resolved_message, error_message, js_or. rewrite Her. cbn. by rewrite Hbo. }
    rewrite Hm.
    assert (Hno : is_object (error_message e) = false).
    { unfold error_message, js_or. by destruct (truthy (prop e "message")). }
    by rewrite Hno.
  - intros Hsc. unfold error_status, js_or. repeat (rewrite Hsc; cbn). reflexivity.
Qed.

(** ** Further properties of [logError] *)

(** X14. Without [ctx.state], or without a logger in it, [logError]
    throws the [TypeError] of the read through [undefined] and logs
    nothing. *)
Theorem logError_missing_logger (e statusCode errorCode : value) (w : World) :
  (state (w_ctx w) = None \/
   exists st, state (w_ctx w) = Some st /\ logger st = None) ->
  logError e statusCode errorCode w = (Throw (TypeError "undefined"), w).
Proof.
  intros Hmissing. apply logError_no_logger. unfold ctx_logger.
  destruct Hmissing as [-> | (st & -> & ->)]; reflexivity.
Qed.

(** X15. On every input, [logError] leaves the context as it is and only
    logs: it makes at most two logger calls, all at error level. *)
Theorem logError_only_logs_errors (e statusCode errorCode : value) (w : World) :
  let final := snd (logError e statusCode errorCode w) in
  w_ctx final = w_ctx w /\
  exists evs,
    w_trace final = w_trace w ++ evs /\
    length evs <= 2 /\
    Forall (fun ev => exists args, ev = EvLog LError args) evs.
Proof.
  intros final. subst final. split; [apply logError_ctx|].
  unfold logError, log. mstep.
  destruct (state (w_ctx w)) as [st|]; cbn;
    [|exists []; rewrite app_nil_r; repeat split; [cbn; lia|constructor]].
  destruct (logger st) as [l|]; cbn;
    [|exists []; rewrite app_nil_r; repeat split; [cbn; lia|constructor]].
  destruct (get_prop e "message") as [m|]; cbn;
    [|exists []; rewrite app_nil_r; repeat split; [cbn; lia|constructor]].
  destruct (l LError _); cbn;
    [|eexists [_]; repeat split; [cbn; lia|repeat constructor; eauto]].
  destruct (js_ge statusCode (nz 500)); cbn;
    [|eexists [_]; repeat split; [cbn; lia|repeat constructor; eauto]].
  destruct (get_prop e "stack") as [s|]; cbn;
    [|eexists [_]; repeat split; [cbn; lia|repeat constructor; eauto]].
  destruct (l LError [s]); cbn; rewrite <- app_assoc;
    eexists [_; _]; (repeat split; [cbn; lia|repeat constructor; eauto]).
Qed.

(** X16. With a logger whose methods return, [logError] returns, and it
    logs the stack exactly when [statusCode >= 500] holds: a status code
    that converts to [NaN] ([undefined], a plain object) gets the one
    entry of a client error. *)
Theorem logError_stack_iff_server_error
    (e statusCode errorCode : value) (w : World) (l : Logger) :
  ctx_logger (w_ctx w) = Some l -> well_behaved l -> nullish e = false ->
  let entry := EvLog LError (error_entry e statusCode errorCode) in
  let final := logError e statusCode errorCode w in
  fst final = Ok VUndef /\
  (js_ge statusCode (nz 500) = true ->
   w_trace (snd final) = w_trace w ++ [entry; EvLog LError [prop e "stack"]]) /\
  (js_ge statusCode (nz 500) = false -> w_trace (snd final) = w_trace w ++ [entry]) /\
  (to_number statusCode = NNaN -> w_trace (snd final) = w_trace w ++ [entry]).
Proof.
  intros Hl Hwb He entry final. subst final entry.
  rewrite (logError_logged e statusCode errorCode w l Hl Hwb He). cbn [fst snd w_trace].
  split; [reflexivity|]. split; [by intros ->|]. split; [by intros ->|].
  intros Hnan. by rewrite (proj1 (nan_comparisons statusCode (nz 500) Hnan)).
Qed.

(** ** Further properties of the request profiler *)

Lemma resolved_getLogger_run (deps : ProfilerDeps) (w : World) :
  resolved_getLogger deps w =
    (fst (getLogger_of deps (w_ctx w)),
     {| w_ctx := snd (getLogger_of deps (w_ctx w));
        w_trace := w_trace w ++ [EvGetLogger (w_ctx w)] |}).
Proof.
  unfold resolved_getLogger, getLogger_of. mstep.
  destruct (getLogger deps) as [f|]; cbn.
  - by destruct (f (w_ctx w)).
  - by destruct (state (w_ctx w)).
Qed.

Section ProfilerFailures.
Variables (dependencies : option ProfilerDeps) (next : Handler) (w : World).
Let deps := default no_profiler_deps dependencies.

Lemma requestProfiler_started_throws (x : value) (w1 : World) :
  resolved_requestStarted deps (calling EvRequestStarted (w_ctx w) (w_trace w))
    = (Throw x, w1) ->
  requestProfiler dependencies next w = (Throw x, w1).
Proof.
  intros Hs. unfold requestProfiler, requestProfiler_stage. fold deps. mstep.
  unfold calling in Hs. rewrite Hs. reflexivity.
Qed.

Lemma requestProfiler_finished_throws
    (r1 : value) (w1 : World) (r2 : value) (c2 : Ctx) (x : value) (w3 : World) :
  resolved_requestStarted deps (calling EvRequestStarted (w_ctx w) (w_trace w))
    = (Ok r1, w1) ->
  next (w_ctx w1) = (Ok r2, c2) ->
  resolved_requestFinished deps (calling EvRequestFinished c2 (w_trace w1 ++ [EvNext]))
    = (Throw x, w3) ->
  requestProfiler dependencies next w = (Throw x, w3).
Proof.
  intros Hs Hn Hf. unfold requestProfiler, requestProfiler_stage. fold deps. mstep.
  unfold calling in Hs, Hf. rewrite Hs. cbn. rewrite Hn. cbn. rewrite Hf. reflexivity.
Qed.

End ProfilerFailures.

(** X17. When [requestStarted] throws, the stage throws the same value
    and the downstream continuation is never called. *)
Theorem requestProfiler_started_failure
    (dependencies : option ProfilerDeps) (next : Handler) (w : World)
    (x : value) (w1 : World) :
  let deps := default no_profiler_deps dependencies in
  resolved_requestStarted deps (calling EvRequestStarted (w_ctx w) (w_trace w))
    = (Throw x, w1) ->
  let final := requestProfiler dependencies next w in
  final = (Throw x, w1) /\
  stage_calls (w_trace (snd final)) = stage_calls (w_trace w) ++ [EvRequestStarted (w_ctx w)].
Proof.
  intros deps Hs final. subst final.
  rewrite (requestProfiler_started_throws dependencies next w x w1 Hs).
  split; [reflexivity|]. cbn.
  pose proof (quiet_calls _ (calling EvRequestStarted (w_ctx w) (w_trace w))
                (quiet_requestStarted deps)) as Hq.
  rewrite Hs in Hq. cbn in Hq. rewrite Hq. by apply stage_calls_snoc.
Qed.

(** X18. When [requestFinished] throws (by default: when
    [ctx.state.timing] is missing), the stage throws the same value and
    calls neither [requestFailed] nor [requestSucceeded]. *)
Theorem requestProfiler_finished_failure
    (dependencies : option ProfilerDeps) (next : Handler) (w : World)
    (r1 : value) (w1 : World) (r2 : value) (c2 : Ctx) (x : value) (w3 : World) :
  let deps := default no_profiler_deps dependencies in
  resolved_requestStarted deps (calling EvRequestStarted (w_ctx w) (w_trace w)) = (Ok r1, w1) ->
  next (w_ctx w1) = (Ok r2, c2) ->
  resolved_requestFinished deps (calling EvRequestFinished c2 (w_trace w1 ++ [EvNext]))
    = (Throw x, w3) ->
  let final := requestProfiler dependencies next w in
  final = (Throw x, w3) /\
  stage_calls (w_trace (snd final)) =
    stage_calls (w_trace w) ++ [EvRequestStarted (w_ctx w); EvNext; EvRequestFinished c2].
Proof.
  intros deps Hs Hn Hf final. subst final.
  rewrite (requestProfiler_finished_throws dependencies next w r1 w1 r2 c2 x w3 Hs Hn Hf).
  split; [reflexivity|]. cbn.
  pose proof (quiet_calls _ (calling EvRequestStarted (w_ctx w) (w_trace w))
                (quiet_requestStarted deps)) as Hq1.
  rewrite Hs in Hq1. cbn in Hq1.
  pose proof (quiet_calls _ (calling EvRequestFinished c2 (w_trace w1 ++ [EvNext]))
                (quiet_requestFinished deps)) as Hq3.
  rewrite Hf in Hq3. cbn in Hq3.
  rewrite Hq3, !stage_calls_snoc, Hq1, stage_calls_snoc, <- !app_assoc by reflexivity.
  reflexivity.
Qed.

(** X19. The stage resolves to [undefined], whatever the continuation
    and the callbacks returned, unless the outcome callback it calls
    ([requestFailed] or [requestSucceeded]) throws: then it throws the
    same value. *)
Theorem requestProfiler_result
    (dependencies : option ProfilerDeps) (next : Handler) (w : World)
    (r1 : value) (w1 : World) (r2 : value) (c2 : Ctx) (r3 : value) (w3 : World) :
  let deps := default no_profiler_deps dependencies in
  resolved_requestStarted deps (calling EvRequestStarted (w_ctx w) (w_trace w)) = (Ok r1, w1) ->
  next (w_ctx w1) = (Ok r2, c2) ->
  resolved_requestFinished deps (calling EvRequestFinished c2 (w_trace w1 ++ [EvNext]))
    = (Ok r3, w3) ->
  let outcome_callback :=
    if js_ge (status (w_ctx w3)) (nz 400)
    then resolved_requestFailed deps (calling EvRequestFailed (w_ctx w3) (w_trace w3))
    else resolved_requestSucceeded deps (calling EvRequestSucceeded (w_ctx w3) (w_trace w3)) in
  let final := requestProfiler dependencies next w in
  (forall r4 w4, outcome_callback = (Ok r4, w4) -> final = (Ok VUndef, w4)) /\
  (forall x w4, outcome_callback = (Throw x, w4) -> final = (Throw x, w4)).
Proof.
  intros deps Hs Hn Hf outcome_callback final. subst final outcome_callback.
  rewrite (requestProfiler_run dependencies next w r1 w1 Hs r2 c2 Hn r3 w3 Hf).
  fold deps. unfold mbind, M_bind.
  destruct (js_ge (status (w_ctx w3)) (nz 400)); split; intros ? ? ->; reflexivity.
Qed.

Lemma default_requestStarted_run
    (deps : ProfilerDeps) (w : World) (l : Logger) (c' : Ctx) (r t : value) (st : State) :
  requestStarted deps = None ->
  getLogger_of deps (w_ctx w) = (Ok (Some l), c') ->
  l LTrace (starting_entry c') = Ok r ->
  hrtime VUndef = Ok t ->
  state c' = Some st ->
  resolved_requestStarted deps w =
    (Ok VUndef,
     {| w_ctx := with_timing {| start := t; duration := VUndef |} st c';
        w_trace := w_trace w ++ [EvGetLogger (w_ctx w); EvLog LTrace (starting_entry c')] |}).
Proof.
  intros Hnone Hgl Hlog Hclock Hst. unfold resolved_requestStarted. rewrite Hnone.
  unfold mbind at 1, M_bind at 1. rewrite resolved_getLogger_run, Hgl. cbn [fst snd].
  unfold log. mstep. fold (starting_entry c'). rewrite Hlog. cbn. rewrite Hclock. cbn.
  rewrite Hst. cbn. rewrite <- app_assoc. reflexivity.
Qed.

Lemma default_requestFinished_run
    (deps : ProfilerDeps) (w : World) (st : State) (tm : Timing) (diff : value) :
  requestFinished deps = None ->
  state (w_ctx w) = Some st ->
  timing st = Some tm ->
  hrtime (start tm) = Ok diff ->
  resolved_requestFinished deps w =
    (Ok VUndef,
     {| w_ctx := with_timing {| start := start tm; duration := duration_ms diff |} st
                   (w_ctx w);
        w_trace := w_trace w ++ [timing_header (duration_ms diff)] |}).
Proof.
  intros Hnone Hst Htm Hclock. unfold resolved_requestFinished. rewrite Hnone.
  mstep. rewrite Hst. cbn. rewrite Htm. cbn. rewrite Hclock. cbn.
  rewrite Hst. cbn. rewrite Htm. reflexivity.
Qed.

Lemma default_requestSucceeded_run
    (deps : ProfilerDeps) (w : World) (st : State) (tm : Timing)
    (l : Logger) (c' : Ctx) (r : value) :
  requestSucceeded deps = None ->
  state (w_ctx w) = Some st ->
  timing st = Some tm ->
  getLogger_of deps (w_ctx w) = (Ok (Some l), c') ->
  l LTrace (succeeded_entry (w_ctx w) (duration tm)) = Ok r ->
  resolved_requestSucceeded deps w =
    (Ok VUndef,
     {| w_ctx := c';
        w_trace := w_trace w
          ++ [EvGetLogger (w_ctx w);
              EvLog LTrace (succeeded_entry (w_ctx w) (duration tm))] |}).
Proof.
  intros Hnone Hst Htm Hgl Hlog. unfold resolved_requestSucceeded. rewrite Hnone.
  mstep. rewrite Hst. cbn. rewrite Htm. cbn.
  rewrite resolved_getLogger_run, Hgl. cbn [fst snd].
  unfold log. mstep. fold (succeeded_entry (w_ctx w) (duration tm)).
  rewrite Hlog. cbn. rewrite <- app_assoc. reflexivity.
Qed.

Lemma default_requestFailed_run
    (deps : ProfilerDeps) (w : World) (st : State) (tm : Timing)
    (l : Logger) (c' : Ctx) (r : value) :
  requestFailed deps = None ->
  state (w_ctx w) = Some st ->
  timing st = Some tm ->
  getLogger_of deps (w_ctx w) = (Ok (Some l), c') ->
  l LWarn (failed_entry (w_ctx w) (status c') (duration tm)) = Ok r ->
  resolved_requestFailed deps w =
    (Ok VUndef,
     {| w_ctx := c';
        w_trace := w_trace w
          ++ [EvGetLogger (w_ctx w);
              EvLog LWarn (failed_entry (w_ctx w) (status c') (duration tm))] |}).
Proof.
  intros Hnone Hst Htm Hgl Hlog. unfold resolved_requestFailed. rewrite Hnone.
  mstep. rewrite Hst. cbn. rewrite Htm. cbn.
  rewrite resolved_getLogger_run, Hgl. cbn [fst snd].
  unfold log. mstep. fold (failed_entry (w_ctx w) (status c') (duration tm)).
  rewrite Hlog. cbn. rewrite <- app_assoc. reflexivity.
Qed.

(** X20. The default [requestStarted] logs one trace entry,
    ["<method> <url> starting"], through the logger [getLogger(ctx)]
    returns, then replaces [ctx.state.timing] by [{start: process.hrtime()}]:
    a duration left there by an earlier run is dropped. Status, body,
    method, url, the logger and the trace id are not touched. *)
Theorem default_requestStarted_resets_timing
    (deps : ProfilerDeps) (w : World) (l : Logger) (c' : Ctx) (r t : value) (st : State) :
  requestStarted deps = None ->
  getLogger_of deps (w_ctx w) = (Ok (Some l), c') ->
  l LTrace (starting_entry c') = Ok r ->
  hrtime VUndef = Ok t ->
  state c' = Some st ->
  let final := resolved_requestStarted deps w in
  fst final = Ok VUndef /\
  w_trace (snd final)
    = w_trace w ++ [EvGetLogger (w_ctx w); EvLog LTrace (starting_entry c')] /\
  (exists st', state (w_ctx (snd final)) = Some st' /\
     timing st' = Some {| start := t; duration := VUndef |} /\
     logger st' = logger st /\ traceId st' = traceId st) /\
  status (w_ctx (snd final)) = status c' /\ body (w_ctx (snd final)) = body c' /\
  method (w_ctx (snd final)) = method c' /\ url (w_ctx (snd final)) = url c'.
Proof.
  intros Hnone Hgl Hlog Hclock Hst final. subst final.
  rewrite (default_requestStarted_run deps w l c' r t st Hnone Hgl Hlog Hclock Hst).
  split; [reflexivity|]. split; [reflexivity|].
  split; [eexists; repeat split|repeat split].
Qed.

(** X21. The default [requestStarted] writes the start marker last: when
    [getLogger(ctx)] gives no logger it throws a [TypeError], and when the
    logger's [trace] throws it throws the same value, in both cases
    leaving [ctx.state.timing] as it was. *)
Theorem default_requestStarted_failure
    (deps : ProfilerDeps) (w : World) (c' : Ctx) :
  requestStarted deps = None ->
  (getLogger_of deps (w_ctx w) = (Ok None, c') ->
   resolved_requestStarted deps w =
     (Throw (TypeError "undefined"),
      {| w_ctx := c'; w_trace := w_trace w ++ [EvGetLogger (w_ctx w)] |})) /\
  (forall l x,
     getLogger_of deps (w_ctx w) = (Ok (Some l), c') ->
     l LTrace (starting_entry c') = Throw x ->
     resolved_requestStarted deps w =
       (Throw x,
        {| w_ctx := c';
           w_trace := w_trace w ++ [EvGetLogger (w_ctx w);
                                    EvLog LTrace (starting_entry c')] |})).
Proof.
  intros Hnone. unfold resolved_requestStarted. rewrite Hnone. split.
  - intros Hgl. unfold mbind at 1, M_bind at 1.
    rewrite resolved_getLogger_run, Hgl. reflexivity.
  - intros l x Hgl Hlog. unfold mbind at 1, M_bind at 1.
    rewrite resolved_getLogger_run, Hgl. cbn [fst snd].
    unfold log. mstep. fold (starting_entry c'). rewrite Hlog. cbn.
    rewrite <- app_assoc. reflexivity.
Qed.

(** X22. The default [requestFinished] computes the duration from the
    recorded start marker, stores it in [ctx.state.timing.duration] and
    sets one header, [Server-Timing: total;dur=<duration>;desc="Total"],
    with that same duration; the start marker, the rest of [ctx.state],
    status and body are not touched. *)
Theorem default_requestFinished_records_duration
    (deps : ProfilerDeps) (w : World) (st : State) (tm : Timing) (diff : value) :
  requestFinished deps = None ->
  state (w_ctx w) = Some st ->
  timing st = Some tm ->
  hrtime (start tm) = Ok diff ->
  let final := resolved_requestFinished deps w in
  let d := duration_ms diff in
  fst final = Ok VUndef /\
  w_trace (snd final) = w_trace w ++ [timing_header d] /\
  (exists st', state (w_ctx (snd final)) = Some st' /\
     timing st' = Some {| start := start tm; duration := d |} /\
     logger st' = logger st /\ traceId st' = traceId st) /\
  status (w_ctx (snd final)) = status (w_ctx w) /\
  body (w_ctx (snd final)) = body (w_ctx w).
Proof.
  intros Hnone Hst Htm Hclock final d. subst final d.
  rewrite (default_requestFinished_run deps w st tm diff Hnone Hst Htm Hclock).
  split; [reflexivity|]. split; [reflexivity|].
  split; [eexists; repeat split|repeat split].
Qed.

(** X23. The default [requestFinished] fails without setting the header
    or changing the context: with a [TypeError] when [ctx.state] or
    [ctx.state.timing] is missing, and with what [process.hrtime] throws
    when it rejects the recorded start marker. *)
Theorem default_requestFinished_failure (deps : ProfilerDeps) (w : World) :
  requestFinished deps = None ->
  ((state (w_ctx w) = None \/
    exists st, state (w_ctx w) = Some st /\ timing st = None) ->
   resolved_requestFinished deps w = (Throw (TypeError "undefined"), w)) /\
  (forall st tm x,
     state (w_ctx w) = Some st -> timing st = Some tm -> hrtime (start tm) = Throw x ->
     resolved_requestFinished deps w = (Throw x, w)).
Proof.
  intros Hnone. unfold resolved_requestFinished. rewrite Hnone. split.
  - intros [Hst | (st & Hst & Htm)]; mstep; rewrite Hst; cbn; [reflexivity|].
    rewrite Htm. reflexivity.
  - intros st tm x Hst Htm Hclock. mstep. rewrite Hst. cbn. rewrite Htm. cbn.
    rewrite Hclock. reflexivity.
Qed.


Lemma getLogger_of_default (c : Ctx) (st : State) :
  state c = Some st -> getLogger_of no_profiler_deps c = (Ok (logger st), c).
Proof. intros Hst. unfold getLogger_of. cbn. by rewrite Hst. Qed.

Lemma default_profiler_run
    (next : Handler) (w : World) (st0 : State) (l0 : Logger) (t0 : value)
    (r : value) (c2 : Ctx) (st2 : State) (l2 : Logger) (tm2 : Timing) (diff : value) :
  state (w_ctx w) = Some st0 -> logger st0 = Some l0 -> well_behaved l0 ->
  hrtime VUndef = Ok t0 ->
  next (with_timing {| start := t0; duration := VUndef |} st0 (w_ctx w)) = (Ok r, c2) ->
  state c2 = Some st2 -> logger st2 = Some l2 -> well_behaved l2 ->
  timing st2 = Some tm2 ->
  hrtime (start tm2) = Ok diff ->
  let d := duration_ms diff in
  let c3 := with_timing {| start := start tm2; duration := d |} st2 c2 in
  requestProfiler None next w =
    (Ok VUndef,
     {| w_ctx := c3;
        w_trace := w_trace w
          ++ [EvRequestStarted (w_ctx w); EvGetLogger (w_ctx w);
              EvLog LTrace (starting_entry (w_ctx w));
              EvNext; EvRequestFinished c2; timing_header d]
          ++ (if js_ge (status c2) (nz 400)
              then [EvRequestFailed c3; EvGetLogger c3;
                    EvLog LWarn (failed_entry c3 (status c3) d)]
              else [EvRequestSucceeded c3; EvGetLogger c3;
                    EvLog LTrace (succeeded_entry c3 d)]) |}).
Proof.
  intros Hst0 Hl0 Hwb0 Hclock0 Hnext Hst2 Hl2 Hwb2 Htm2 Hclock2 d c3.
  destruct (Hwb0 LTrace (starting_entry (w_ctx w))) as [r0 Hlog0].
  pose proof (default_requestStarted_run no_profiler_deps
                (calling EvRequestStarted (w_ctx w) (w_trace w)) l0 (w_ctx w) r0 t0 st0
                eq_refl) as Hs.
  cbn [calling w_ctx w_trace] in Hs.
  rewrite (getLogger_of_default _ _ Hst0), Hl0 in Hs.
  specialize (Hs eq_refl Hlog0 Hclock0 Hst0).
  pose proof (default_requestFinished_run no_profiler_deps
                (calling EvRequestFinished c2
                   (((w_trace w ++ [EvRequestStarted (w_ctx w)])
                       ++ [EvGetLogger (w_ctx w); EvLog LTrace (starting_entry (w_ctx w))])
                      ++ [EvNext]))
                st2 tm2 diff eq_refl Hst2 Htm2 Hclock2) as Hf.
  cbn [calling w_ctx w_trace] in Hf. fold d in Hf. fold c3 in Hf.
  rewrite (requestProfiler_run None next w VUndef _ Hs r c2 Hnext VUndef _ Hf).
  cbn [w_ctx w_trace default].
  assert (Hst3 : state c3 = Some (set_timing {| start := start tm2; duration := d |} st2))
    by reflexivity.
  change (status c3) with (status c2).
  destruct (js_ge (status c2) (nz 400)).
  - destruct (Hwb2 LWarn (failed_entry c3 (status c3) d)) as [r4 Hlog4].
    unfold mbind, M_bind.
    erewrite (default_requestFailed_run no_profiler_deps
                (calling EvRequestFailed c3 _) _
                {| start := start tm2; duration := d |} l2 c3 r4 eq_refl Hst3 eq_refl).
    + cbn. rewrite <- !app_assoc. reflexivity.
    + cbn [calling w_ctx]. rewrite (getLogger_of_default _ _ Hst3). cbn. by rewrite Hl2.
    + exact Hlog4.
  - destruct (Hwb2 LTrace (succeeded_entry c3 d)) as [r4 Hlog4].
    unfold mbind, M_bind.
    erewrite (default_requestSucceeded_run no_profiler_deps
                (calling EvRequestSucceeded c3 _) _
                {| start := start tm2; duration := d |} l2 c3 r4 eq_refl Hst3 eq_refl).
    + cbn. rewrite <- !app_assoc. reflexivity.
    + cbn [calling w_ctx]. rewrite (getLogger_of_default _ _ Hst3). cbn. by rewrite Hl2.
    + exact Hlog4.
Qed.

(** X25. A whole run of [requestProfiler()] with its default callbacks, on
    a context whose [state] holds a logger, around a continuation that
    returns and leaves a logger and a timing record in [ctx.state]: the
    stage returns [undefined]; it logs the start, sets the
    [Server-Timing] header and logs the outcome, at warn level when the
    final [ctx.status >= 400] holds and at trace level otherwise; the
    duration in the header, in [ctx.state.timing.duration] and in the
    log's [elapsed] field is one and the same value; status and body are
    the ones the continuation left. *)
Theorem requestProfiler_default_run
    (next : Handler) (w : World) (st0 : State) (l0 : Logger) (t0 : value)
    (r : value) (c2 : Ctx) (st2 : State) (l2 : Logger) (tm2 : Timing) (diff : value) :
  state (w_ctx w) = Some st0 -> logger st0 = Some l0 -> well_behaved l0 ->
  hrtime VUndef = Ok t0 ->
  next (with_timing {| start := t0; duration := VUndef |} st0 (w_ctx w)) = (Ok r, c2) ->
  state c2 = Some st2 -> logger st2 = Some l2 -> well_behaved l2 ->
  timing st2 = Some tm2 ->
  hrtime (start tm2) = Ok diff ->
  let d := duration_ms diff in
  let c3 := with_timing {| start := start tm2; duration := d |} st2 c2 in
  requestProfiler None next w =
    (Ok VUndef,
     {| w_ctx := c3;
        w_trace := w_trace w
          ++ [EvRequestStarted (w_ctx w); EvGetLogger (w_ctx w);
              EvLog LTrace (starting_entry (w_ctx w));
              EvNext; EvRequestFinished c2; timing_header d]
          ++ (if js_ge (status c2) (nz 400)
              then [EvRequestFailed c3; EvGetLogger c3;
                    EvLog LWarn (failed_entry c3 (status c3) d)]
              else [EvRequestSucceeded c3; EvGetLogger c3;
                    EvLog LTrace (succeeded_entry c3 d)]) |}) /\
  status c3 = status c2 /\ body c3 = body c2.
Proof.
  intros Hst0 Hl0 Hwb0 Hclock0 Hnext Hst2 Hl2 Hwb2 Htm2 Hclock2 d c3.
  split; [|split; reflexivity].
  exact (default_profiler_run next w st0 l0 t0 r c2 st2 l2 tm2 diff
           Hst0 Hl0 Hwb0 Hclock0 Hnext Hst2 Hl2 Hwb2 Htm2 Hclock2).
Qed.

(** ** How the stages compose *)

Lemma useReturnValue_as_handler (fn next : Handler) (c : Ctx) :
  as_handler (useReturnValue fn next) c =
    match fn c with
    | (Ok v, c1) => next (returned v c1)
    | (Throw e, c1) => (Throw e, c1)
    end.
Proof.
  unfold as_handler, useReturnValue. mstep.
  destruct (fn c) as [[v|e] c1]; cbn; [|reflexivity].
  destruct v; cbn; by destruct (next _).
Qed.

Lemma errorHandler_default_as_handler
    (next : Handler) (c : Ctx) (e : value) (c1 : Ctx) (st1 : State) (l1 : Logger) :
  next c = (Throw e, c1) -> nullish e = false ->
  state c1 = Some st1 -> logger st1 = Some l1 -> well_behaved l1 ->
  as_handler (errorHandler None next) c = (Ok VUndef, responded e (traceId st1) c1).
Proof.
  intros Hnext He Hst Hl Hwb. unfold as_handler.
  assert (Ht : resolved_getTraceId (default no_error_deps None) c1
               = (Ok (traceId st1), c1)).
  { unfold resolved_getTraceId. cbn. unfold default_getTraceId. by rewrite Hst. }
  rewrite (errorHandler_run None next (fresh c) e c1 (traceId st1) c1 Hnext He Ht).
  cbv zeta. fold (envelope e (traceId st1)). fold (responded e (traceId st1) c1).
  unfold resolved_instrumentation. cbn [default no_error_deps instrumentation].
  unfold mbind, M_bind.
  rewrite (logError_logged e (error_status e) (error_code e) _ l1);
    [reflexivity| |exact Hwb|exact He].
  unfold ctx_logger. cbn. by rewrite Hst.
Qed.

(** X26. The default pipeline, [requestProfiler()] around
    [errorHandler()]: when the downstream continuation throws a failure
    [e] (leaving a logger and a timing record in [ctx.state]), the
    failure does not reach the profiler. The pipeline returns
    [undefined], the response carries the status and the body of the
    error stage, and the profiler classifies the request by that status:
    [requestFailed] iff the resolved status is [>= 400], which it is for
    every failure without a truthy [statusCode]. *)
Theorem default_pipeline_answers_failure
    (next : Handler) (w : World) (st0 : State) (l0 : Logger) (t0 : value)
    (e : value) (c1 : Ctx) (st1 : State) (l1 : Logger) (tm1 : Timing) (diff : value) :
  state (w_ctx w) = Some st0 -> logger st0 = Some l0 -> well_behaved l0 ->
  hrtime VUndef = Ok t0 ->
  next (with_timing {| start := t0; duration := VUndef |} st0 (w_ctx w)) = (Throw e, c1) ->
  nullish e = false ->
  state c1 = Some st1 -> logger st1 = Some l1 -> well_behaved l1 ->
  timing st1 = Some tm1 ->
  hrtime (start tm1) = Ok diff ->
  let final := requestProfiler None (as_handler (errorHandler None next)) w in
  fst final = Ok VUndef /\
  status (w_ctx (snd final)) = error_status e /\
  body (w_ctx (snd final)) = envelope e (traceId st1) /\
  (exists c2 c3,
     stage_calls (w_trace (snd final)) =
       stage_calls (w_trace w)
         ++ [EvRequestStarted (w_ctx w); EvNext; EvRequestFinished c2;
             if js_ge (error_status e) (nz 400)
             then EvRequestFailed c3 else EvRequestSucceeded c3]) /\
  (truthy (prop e "statusCode") = false -> js_ge (error_status e) (nz 400) = true).
Proof.
  intros Hst0 Hl0 Hwb0 Hclock0 Hnext He Hst1 Hl1 Hwb1 Htm1 Hclock1 final. subst final.
  pose proof (errorHandler_default_as_handler next _ e c1 st1 l1 Hnext He Hst1 Hl1 Hwb1)
    as Hinner.
  rewrite (default_profiler_run (as_handler (errorHandler None next)) w st0 l0 t0
             VUndef (responded e (traceId st1) c1) st1 l1 tm1 diff
             Hst0 Hl0 Hwb0 Hclock0 Hinner Hst1 Hl1 Hwb1 Htm1 Hclock1).
  cbn [fst snd w_ctx w_trace].
  split; [reflexivity|]. split; [reflexivity|]. split; [reflexivity|]. split.
  - do 2 eexists. change (status (responded e (traceId st1) c1)) with (error_status e).
    unfold stage_calls. rewrite !filter_app.
    destruct (js_ge (error_status e) (nz 400)); reflexivity.
  - intros Hsc. unfold error_status, js_or. rewrite Hsc. reflexivity.
Qed.

(** X27. A handler's failure passes through [useReturnValue] as it is,
    without a call of the continuation, so an error stage around
    [useReturnValue(fn)] behaves exactly as it would around [fn]
    itself. *)
Theorem useReturnValue_failure_transparent
    (dependencies : option ErrorHandlerDeps) (fn next : Handler) (w : World)
    (e : value) (c1 : Ctx) :
  fn (w_ctx w) = (Throw e, c1) ->
  as_handler (useReturnValue fn next) (w_ctx w) = (Throw e, c1) /\
  errorHandler dependencies (as_handler (useReturnValue fn next)) w
    = errorHandler dependencies fn w.
Proof.
  intros Hfn.
  assert (Hsame : as_handler (useReturnValue fn next) (w_ctx w) = (Throw e, c1))
    by (by rewrite useReturnValue_as_handler, Hfn).
  split; [exact Hsame|].
  unfold errorHandler. mstep. by rewrite Hsame, Hfn.
Qed.

(** X28. A request whose handler returns is classified as succeeded:
    with [useReturnValue(fn)] as the continuation of [requestProfiler],
    when [fn] returns (and neither the continuation after it nor
    [requestFinished] changes the status) the final status is 200 or 204
    and the profiler calls [requestSucceeded], never [requestFailed]. *)
Theorem handler_success_is_classified_succeeded
    (dependencies : option ProfilerDeps) (fn next : Handler) (w : World)
    (r1 : value) (w1 : World) (v : value) (c1 : Ctx) (r2 : value) (c2 : Ctx)
    (r3 : value) (w3 : World) :
  let deps := default no_profiler_deps dependencies in
  resolved_requestStarted deps (calling EvRequestStarted (w_ctx w) (w_trace w)) = (Ok r1, w1) ->
  fn (w_ctx w1) = (Ok v, c1) ->
  next (returned v c1) = (Ok r2, c2) ->
  status c2 = status (returned v c1) ->
  resolved_requestFinished deps (calling EvRequestFinished c2 (w_trace w1 ++ [EvNext]))
    = (Ok r3, w3) ->
  status (w_ctx w3) = status c2 ->
  (status (w_ctx w3) = num 200 \/ status (w_ctx w3) = num 204) /\
  stage_calls (w_trace (snd (requestProfiler dependencies
                               (as_handler (useReturnValue fn next)) w))) =
    stage_calls (w_trace w)
      ++ [EvRequestStarted (w_ctx w); EvNext; EvRequestFinished c2;
          EvRequestSucceeded (w_ctx w3)].
Proof.
  intros deps Hs Hfn Hnext Hkept Hf Hkept'.
  assert (Hn : as_handler (useReturnValue fn next) (w_ctx w1) = (Ok r2, c2))
    by (by rewrite useReturnValue_as_handler, Hfn).
  assert (Hstatus : status (w_ctx w3) = num 200 \/ status (w_ctx w3) = num 204).
  { rewrite Hkept', Hkept. destruct v; cbn; auto. }
  split; [exact Hstatus|].
  rewrite (requestProfiler_calls dependencies _ w r1 w1 Hs r2 c2 Hn r3 w3 Hf).
  destruct Hstatus as [-> | ->]; reflexivity.
Qed.

End Properties.

(** ** The theorems at concrete inputs *)

Lemma errorHandler_sets_status_and_body_witness :
  rejects boom (mock_ctx VUndef) = (Throw boom, mock_ctx VUndef) /\
  nullish boom = false /\
  resolved_getTraceId no_error_deps (mock_ctx VUndef)
    = (Ok (VStr "mock-trace-id"), mock_ctx VUndef) /\
  exists c3 o,
    w_ctx (snd (errorHandler (rt := example_runtime) None (rejects boom)
                  (fresh (mock_ctx VUndef)))) = c3 /\
    status c3 = num 403 /\ body c3 = VObj o /\
    o !! "message" = Some (VStr "boom") /\ o !! "errorCode" = Some (num 7) /\
    o !! "traceId" = Some (VStr "mock-trace-id").
Proof.
  split; [reflexivity|]. split; [reflexivity|]. split; [reflexivity|].
  destruct (errorHandler_sets_status_and_body (rt := example_runtime) None (rejects boom)
              (fresh (mock_ctx VUndef)) boom (mock_ctx VUndef) (VStr "mock-trace-id")
              (mock_ctx VUndef) eq_refl eq_refl eq_refl)
    as (c3 & o & _ & Hst & Hb & Hm & Hc & Ht & _ & Hfinal & _).
  exists c3, o. split; [exact (Hfinal eq_refl)|].
  split; [exact Hst|]. split; [exact Hb|]. split; [exact Hm|]. split; [exact Hc|exact Ht].
Defined.

Lemma errorHandler_absorbs_failure_witness :
  let deps := Some {| getTraceId := None;
                      instrumentation := Some failing_instrumentation |} in
  rejects boom (mock_ctx VUndef) = (Throw boom, mock_ctx VUndef) /\
  nullish boom = false /\
  resolved_getTraceId (default no_error_deps deps) (mock_ctx VUndef)
    = (Ok (VStr "mock-trace-id"), mock_ctx VUndef) /\
  exists c3,
    errorHandler (rt := example_runtime) deps (rejects boom) (fresh (mock_ctx VUndef))
      = (Throw (VStr "instrumentation failed"),
         {| w_ctx := c3;
            w_trace := [EvNext; EvGetTraceId (mock_ctx VUndef);
                        EvInstrumentation boom c3 (num 403) (num 7)] |}) /\
    status c3 = num 403.
Proof.
  intros deps.
  split; [reflexivity|]. split; [reflexivity|]. split; [reflexivity|].
  destruct (errorHandler_absorbs_failure (rt := example_runtime) deps (rejects boom)
              (fresh (mock_ctx VUndef)) boom (mock_ctx VUndef) (VStr "mock-trace-id")
              (mock_ctx VUndef) eq_refl eq_refl eq_refl)
    as (c3 & evs & Hst & _ & _ & _ & _ & _ & Hthrow & _).
  exists c3. split; [|exact Hst].
  exact (Hthrow failing_instrumentation (VStr "instrumentation failed") c3 eq_refl eq_refl).
Defined.

Lemma status_resolution_asymmetry_witness :
  rejects not_found (mock_ctx VUndef) = (Throw not_found, mock_ctx VUndef) /\
  nullish not_found = false /\
  resolved_getTraceId no_error_deps (mock_ctx VUndef)
    = (Ok (VStr "mock-trace-id"), mock_ctx VUndef) /\
  disabledLogger LError [prop not_found "message"] = Ok VUndef /\
  disabledLogger LDebug [prop not_found "stack"] = Ok VUndef /\
  truthy (prop not_found "statusCode") = false /\
  truthy (prop not_found "status") = true /\
  status (w_ctx (snd (setErrorResponse not_found None (fresh (mock_ctx VUndef)))))
    = prop not_found "status" /\
  exists c3,
    EvInstrumentation not_found c3 (num 500) (error_code not_found)
      ∈ w_trace (snd (errorHandler (rt := example_runtime) None (rejects not_found)
                        (fresh (mock_ctx VUndef)))) /\
    status c3 = num 500.
Proof.
  do 7 (split; [reflexivity|]).
  destruct (status_resolution_asymmetry (rt := example_runtime) None (rejects not_found)
              (fresh (mock_ctx VUndef)) not_found (mock_ctx VUndef) (VStr "mock-trace-id")
              (mock_ctx VUndef) None (fresh (mock_ctx VUndef)) VUndef VUndef
              eq_refl eq_refl eq_refl eq_refl eq_refl)
    as (c3 & by_stage & Hin & Hst & _ & _ & Hasym).
  destruct (Hasym eq_refl eq_refl) as [Hstage Hhelper].
  split; [exact Hhelper|].
  exists c3. rewrite <- Hstage. split; [exact Hin|exact Hst].
Defined.

Lemma setErrorResponse_unwraps_one_level_witness :
  nullish nested_error = false /\
  disabledLogger LError [prop nested_error "message"] = Ok VUndef /\
  disabledLogger LDebug [prop nested_error "stack"] = Ok VUndef /\
  is_object (resolved_message nested_error) = true /\
  truthy (prop (resolved_message nested_error) "message") = true /\
  body_message (w_ctx (snd (setErrorResponse nested_error None (fresh (mock_ctx VUndef)))))
    = Some (VStr "inner").
Proof.
  do 5 (split; [reflexivity|]).
  exact (proj1 (setErrorResponse_unwraps_one_level nested_error None
                  (fresh (mock_ctx VUndef)) VUndef VUndef eq_refl eq_refl eq_refl)
           eq_refl eq_refl).
Defined.

Lemma setErrorResponse_message_witness :
  nullish nested_error = false /\
  disabledLogger LError [prop nested_error "message"] = Ok VUndef /\
  disabledLogger LDebug [prop nested_error "stack"] = Ok VUndef /\
  body (w_ctx (snd (setErrorResponse nested_error None (fresh (mock_ctx VUndef)))))
    = VObj {[ "message" := VStr "inner" ]}.
Proof.
  do 3 (split; [reflexivity|]).
  destruct (setErrorResponse_message nested_error None (fresh (mock_ctx VUndef))
              VUndef VUndef eq_refl eq_refl eq_refl) as (x & Hbody & Hinner & _).
  rewrite Hbody.
  rewrite (Hinner {[ "message" := VStr "inner" ]} "inner" eq_refl eq_refl);
    [reflexivity | discriminate].
Defined.

Lemma logError_error_calls_witness :
  let w := fresh (mock_ctx VUndef) in
  let fields sc := VObj {[ "errorCode" := num 456; "statusCode" := sc ]} in
  state (w_ctx w) = Some {| logger := Some mock_logger; traceId := VStr "mock-trace-id";
                            timing := Some {| start := VUndef; duration := VUndef |} |} /\
  nullish with_stack = false /\
  js_lt (rt := example_runtime) (num 123) (nz 500) = true /\
  js_ge (rt := example_runtime) (num 501) (nz 500) = true /\
  w_trace (snd (logError (rt := example_runtime) with_stack (num 123) (num 456) w))
    = [EvLog LError [fields (num 123); VStr "An error message"]] /\
  w_trace (snd (logError (rt := example_runtime) with_stack (num 501) (num 456) w))
    = [EvLog LError [fields (num 501); VStr "An error message"];
       EvLog LError [VStr "error stack trace string"]].
Proof.
  intros w fields.
  do 4 (split; [reflexivity|]).
  split.
  - exact (proj1 (logError_error_calls (rt := example_runtime) with_stack (num 123) (num 456)
                    w _ mock_logger eq_refl eq_refl eq_refl) eq_refl).
  - exact (proj2 (logError_error_calls (rt := example_runtime) with_stack (num 501) (num 456)
                    w _ mock_logger eq_refl eq_refl eq_refl) eq_refl VUndef eq_refl).
Defined.

Lemma useReturnValue_sets_response_witness :
  let w := fresh (mock_ctx VUndef) in
  resolves VUndef (w_ctx w) = (Ok VUndef, w_ctx w) /\
  rejects boom (w_ctx w) = (Throw boom, w_ctx w) /\
  (exists c2,
     useReturnValue (resolves VUndef) spy w
       = (Ok VUndef, {| w_ctx := c2; w_trace := [EvFn (w_ctx w); EvNext] |}) /\
     status c2 = num 204 /\ body c2 = body (w_ctx w)) /\
  (exists c2,
     useReturnValue (resolves (VStr "text response")) spy w
       = (Ok VUndef, {| w_ctx := c2; w_trace := [EvFn (w_ctx w); EvNext] |}) /\
     status c2 = num 200 /\ body c2 = VStr "text response") /\
  useReturnValue (rejects boom) spy w
    = (Throw boom, {| w_ctx := w_ctx w; w_trace := [EvFn (w_ctx w)] |}).
Proof.
  intros w. do 2 (split; [reflexivity|]).
  split.
  { destruct (proj1 (useReturnValue_sets_response (resolves VUndef) spy w)
                VUndef (w_ctx w) eq_refl) as (c2 & Hrun & Hundef & _).
    exists c2. split; [exact Hrun|]. exact (Hundef eq_refl). }
  split.
  { destruct (proj1 (useReturnValue_sets_response (resolves (VStr "text response")) spy w)
                (VStr "text response") (w_ctx w) eq_refl) as (c2 & Hrun & _ & Hdef & _).
    exists c2. split; [exact Hrun|]. apply Hdef. discriminate. }
  exact (proj2 (useReturnValue_sets_response (rejects boom) spy w) boom (w_ctx w) eq_refl).
Defined.

Lemma requestProfiler_classifies_witness :
  let w := fresh (mock_ctx (num 404)) in
  let w1 := after_started (num 404) in
  let w3 := after_finished (num 404) in
  resolved_requestStarted (rt := example_runtime) spied_outcomes
    (calling EvRequestStarted (w_ctx w) (w_trace w)) = (Ok VUndef, w1) /\
  spy (w_ctx w1) = (Ok VUndef, w_ctx w1) /\
  resolved_requestFinished (rt := example_runtime) spied_outcomes
    (calling EvRequestFinished (w_ctx w1) (w_trace w1 ++ [EvNext])) = (Ok VUndef, w3) /\
  js_ge (rt := example_runtime) (status (w_ctx w3)) (nz 400) = true /\
  stage_calls (w_trace (snd (requestProfiler (rt := example_runtime) (Some spied_outcomes)
                               spy w)))
    = [EvRequestStarted (w_ctx w); EvNext; EvRequestFinished (w_ctx w1);
       EvRequestFailed (w_ctx w3)].
Proof.
  intros w w1 w3.
  assert (Hs : resolved_requestStarted (rt := example_runtime) spied_outcomes
                 (calling EvRequestStarted (w_ctx w) (w_trace w)) = (Ok VUndef, w1))
    by reflexivity.
  assert (Hn : spy (w_ctx w1) = (Ok VUndef, w_ctx w1)) by reflexivity.
  assert (Hf : resolved_requestFinished (rt := example_runtime) spied_outcomes
                 (calling EvRequestFinished (w_ctx w1) (w_trace w1 ++ [EvNext]))
               = (Ok VUndef, w3)) by reflexivity.
  assert (Hge : js_ge (rt := example_runtime) (status (w_ctx w3)) (nz 400) = true)
    by reflexivity.
  do 4 (split; [assumption|]).
  destruct (requestProfiler_classifies (rt := example_runtime) (Some spied_outcomes) spy w
              VUndef w1 VUndef (w_ctx w1) VUndef w3 Hs Hn Hf)
    as (call & Hcalls & Hfailed & _).
  rewrite Hcalls. rewrite (proj2 Hfailed Hge). reflexivity.
Defined.

Lemma requestProfiler_propagates_witness :
  let w := fresh (mock_ctx (num 200)) in
  let w1 := after_started (num 200) in
  resolved_requestStarted (rt := example_runtime) spied_outcomes
    (calling EvRequestStarted (w_ctx w) (w_trace w)) = (Ok VUndef, w1) /\
  rejects boom (w_ctx w1) = (Throw boom, w_ctx w1) /\
  requestProfiler (rt := example_runtime) (Some spied_outcomes) (rejects boom) w
    = (Throw boom, {| w_ctx := w_ctx w1; w_trace := w_trace w1 ++ [EvNext] |}) /\
  stage_calls (w_trace (snd (requestProfiler (rt := example_runtime) (Some spied_outcomes)
                               (rejects boom) w)))
    = [EvRequestStarted (w_ctx w); EvNext].
Proof.
  intros w w1.
  assert (Hs : resolved_requestStarted (rt := example_runtime) spied_outcomes
                 (calling EvRequestStarted (w_ctx w) (w_trace w)) = (Ok VUndef, w1))
    by reflexivity.
  assert (Hn : rejects boom (w_ctx w1) = (Throw boom, w_ctx w1)) by reflexivity.
  do 2 (split; [assumption|]).
  exact (requestProfiler_propagates (rt := example_runtime) (Some spied_outcomes)
           (rejects boom) w VUndef w1 boom (w_ctx w1) Hs Hn).
Defined.

Lemma requestProfiler_success_is_default_witness :
  let w := fresh (mock_ctx VUndef) in
  let w1 := after_started VUndef in
  let w3 := after_finished VUndef in
  resolved_requestStarted (rt := example_runtime) spied_outcomes
    (calling EvRequestStarted (w_ctx w) (w_trace w)) = (Ok VUndef, w1) /\
  spy (w_ctx w1) = (Ok VUndef, w_ctx w1) /\
  resolved_requestFinished (rt := example_runtime) spied_outcomes
    (calling EvRequestFinished (w_ctx w1) (w_trace w1 ++ [EvNext])) = (Ok VUndef, w3) /\
  status (w_ctx w3) = VUndef /\
  js_ge (rt := example_runtime) (status (w_ctx w3)) (nz 400) = false /\
  js_lt (rt := example_runtime) (status (w_ctx w3)) (nz 400) = false /\
  stage_calls (w_trace (snd (requestProfiler (rt := example_runtime) (Some spied_outcomes)
                               spy w)))
    = [EvRequestStarted (w_ctx w); EvNext; EvRequestFinished (w_ctx w1);
       EvRequestSucceeded (w_ctx w3)].
Proof.
  intros w w1 w3.
  assert (Hs : resolved_requestStarted (rt := example_runtime) spied_outcomes
                 (calling EvRequestStarted (w_ctx w) (w_trace w)) = (Ok VUndef, w1))
    by reflexivity.
  assert (Hn : spy (w_ctx w1) = (Ok VUndef, w_ctx w1)) by reflexivity.
  assert (Hf : resolved_requestFinished (rt := example_runtime) spied_outcomes
                 (calling EvRequestFinished (w_ctx w1) (w_trace w1 ++ [EvNext]))
               = (Ok VUndef, w3)) by reflexivity.
  do 3 (split; [assumption|]). split; [reflexivity|].
  destruct (requestProfiler_success_is_default (rt := example_runtime) (Some spied_outcomes)
              spy w VUndef w1 VUndef (w_ctx w1) VUndef w3 Hs Hn Hf)
    as (Hsucc & Hnan & _).
  destruct (Hnan eq_refl) as [Hge Hlt].
  split; [exact Hge|]. split; [exact Hlt|]. exact (Hsucc Hge).
Defined.

(** ** Where the specification says more than the code does *)

(** C2, as stated, fails: for an error with a body of extra fields and no
    [error], the resolved message is that body, an object without a
    [message] field, and it becomes the response's [message]. *)
Lemma setErrorResponse_message_can_be_object :
  let c := w_ctx (snd (setErrorResponse error_with_body None (fresh (mock_ctx VUndef)))) in
  body_message c = Some (VObj {[ "prop" := VStr "additional prop" ]}) /\
  js_typeof (VObj {[ "prop" := VStr "additional prop" ]}) = "object".
Proof. vm_compute. split; reflexivity. Qed.

(** C4, as stated, fails: when [e.error] is an object whose [message] is
    the empty string, the resolved message has a [message] string field,
    yet the body's [message] is the outer object, not that string. *)
Lemma setErrorResponse_keeps_outer_object :
  let c := w_ctx (snd (setErrorResponse empty_nested_error None
                         (fresh (mock_ctx VUndef)))) in
  resolved_message empty_nested_error = VObj {[ "message" := VStr EmptyString ]} /\
  body_message c = Some (VObj {[ "message" := VStr EmptyString ]}) /\
  body_message c <> Some (VStr EmptyString).
Proof. vm_compute. repeat split. discriminate. Qed.

(** C7, as stated, fails: on a context without a status (as in the
    repository's test 'calls next()'), [requestSucceeded] is called
    although [ctx.status < 400] does not hold. *)
Lemma requestProfiler_succeeds_without_status :
  let final := requestProfiler (rt := example_runtime) (Some spied_outcomes) spy
                 (fresh (mock_ctx VUndef)) in
  exists c0 c2 c3,
    stage_calls (w_trace (snd final))
      = [EvRequestStarted c0; EvNext; EvRequestFinished c2; EvRequestSucceeded c3] /\
    status c3 = VUndef /\
    js_lt (rt := example_runtime) (status c3) (nz 400) = false.
Proof. vm_compute. do 3 eexists. repeat split. Qed.

(** ** The further properties at concrete inputs *)

Lemma mock_logger_well_behaved : well_behaved mock_logger.
Proof. intros lvl args. exists VUndef. reflexivity. Qed.

Lemma errorHandler_success_witness :
  errorHandler (rt := example_runtime) None (resolves (VStr "done")) (fresh (mock_ctx (num 200)))
    = (Ok VUndef, {| w_ctx := mock_ctx (num 200); w_trace := [EvNext] |}).
Proof.
  exact (errorHandler_success (rt := example_runtime) None (resolves (VStr "done"))
           (fresh (mock_ctx (num 200))) (VStr "done") (mock_ctx (num 200)) eq_refl).
Defined.

Lemma errorHandler_nullish_failure_witness :
  exists what,
    errorHandler (rt := example_runtime) None (rejects VUndef) (fresh (mock_ctx VUndef))
      = (Throw (TypeError what), {| w_ctx := mock_ctx VUndef; w_trace := [EvNext] |}).
Proof.
  exact (errorHandler_nullish_failure (rt := example_runtime) None (rejects VUndef)
           (fresh (mock_ctx VUndef)) VUndef (mock_ctx VUndef) eq_refl eq_refl).
Defined.

Lemma errorHandler_getTraceId_failure_witness :
  errorHandler (rt := example_runtime) None (rejects boom) (fresh bare_ctx)
    = (Throw (TypeError "undefined"),
       {| w_ctx := bare_ctx; w_trace := [EvNext; EvGetTraceId bare_ctx] |}).
Proof.
  exact (proj2 (errorHandler_getTraceId_failure (rt := example_runtime) None (rejects boom)
                  (fresh bare_ctx) boom bare_ctx eq_refl eq_refl) eq_refl eq_refl).
Defined.

Lemma errorHandler_default_logging_witness :
  let c3 := responded boom (VStr "mock-trace-id") (mock_ctx VUndef) in
  errorHandler (rt := example_runtime) None (rejects boom) (fresh (mock_ctx VUndef))
    = (Ok VUndef,
       {| w_ctx := c3;
          w_trace := [EvNext; EvGetTraceId (mock_ctx VUndef);
                      EvInstrumentation boom c3 (num 403) (num 7);
                      EvLog LError (error_entry boom (num 403) (num 7))] |}).
Proof.
  exact (errorHandler_default_logging (rt := example_runtime) None (rejects boom)
           (fresh (mock_ctx VUndef)) boom (mock_ctx VUndef) (VStr "mock-trace-id")
           (mock_ctx VUndef) mock_logger eq_refl eq_refl eq_refl eq_refl eq_refl
           mock_logger_well_behaved).
Defined.

Lemma errorHandler_missing_logger_witness :
  let c3 := responded boom (VStr "t1") quiet_ctx in
  errorHandler (rt := example_runtime) None (rejects boom) (fresh quiet_ctx)
    = (Throw (TypeError "undefined"),
       {| w_ctx := c3;
          w_trace := [EvNext; EvGetTraceId quiet_ctx;
                      EvInstrumentation boom c3 (num 403) (num 7)] |}).
Proof.
  exact (errorHandler_missing_logger (rt := example_runtime) None (rejects boom)
           (fresh quiet_ctx) boom quiet_ctx (VStr "t1") quiet_ctx
           eq_refl eq_refl eq_refl eq_refl eq_refl).
Defined.

Lemma errorHandler_bare_failure_witness :
  exists c3,
    EvInstrumentation (VStr "oops") c3 (num 500) (num 0)
      ∈ w_trace (snd (errorHandler (rt := example_runtime) None (rejects (VStr "oops"))
                        (fresh (mock_ctx VUndef)))) /\
    status c3 = num 500 /\
    body c3 = VObj {[ "traceId" := VStr "mock-trace-id"; "errorCode" := num 0;
                      "message" := VStr "Internal server error" ]}.
Proof.
  exact (errorHandler_bare_failure (rt := example_runtime) None (rejects (VStr "oops"))
           (fresh (mock_ctx VUndef)) (VStr "oops") (mock_ctx VUndef)
           (VStr "mock-trace-id") (mock_ctx VUndef)
           eq_refl eq_refl eq_refl eq_refl eq_refl eq_refl eq_refl).
Defined.

Lemma errorHandler_response_invariants_witness :
  exists c3 st ec,
    EvInstrumentation boom c3 st ec
      ∈ w_trace (snd (errorHandler (rt := example_runtime) None (rejects boom)
                        (fresh (mock_ctx VUndef)))) /\
    status c3 = st /\ truthy st = true /\
    (exists m, body_message c3 = Some m /\ truthy m = true) /\
    method c3 = VStr "GET" /\ url c3 = VStr "/" /\ state c3 = state (mock_ctx VUndef).
Proof.
  exact (errorHandler_response_invariants (rt := example_runtime) None (rejects boom)
           (fresh (mock_ctx VUndef)) boom (mock_ctx VUndef) (VStr "mock-trace-id")
           (mock_ctx VUndef) eq_refl eq_refl eq_refl).
Defined.

Lemma setErrorResponse_logs_error_then_debug_witness :
  let final := setErrorResponse with_stack (Some mock_logger) (fresh (mock_ctx VUndef)) in
  fst final = Ok VUndef /\
  w_trace (snd final) = [EvLog LError [VStr "An error message"];
                         EvLog LDebug [VStr "error stack trace string"]] /\
  method (w_ctx (snd final)) = VStr "GET" /\
  url (w_ctx (snd final)) = VStr "/" /\
  state (w_ctx (snd final)) = state (mock_ctx VUndef).
Proof.
  exact (setErrorResponse_logs_error_then_debug with_stack (Some mock_logger)
           (fresh (mock_ctx VUndef)) VUndef VUndef eq_refl eq_refl eq_refl).
Defined.

Lemma setErrorResponse_never_empty_witness :
  let final := setErrorResponse (VStr "oops") None (fresh (mock_ctx VUndef)) in
  fst final = Ok VUndef /\
  truthy (status (w_ctx (snd final))) = true /\
  exists m, body (w_ctx (snd final)) = VObj {[ "message" := m ]} /\ truthy m = true.
Proof.
  exact (setErrorResponse_never_empty (VStr "oops") (fresh (mock_ctx VUndef)) eq_refl).
Defined.

Lemma setErrorResponse_logger_failure_witness :
  setErrorResponse with_stack (Some broken_logger) (fresh (mock_ctx (num 200)))
    = (Throw (VStr "log sink down"),
       {| w_ctx := mock_ctx (num 200);
          w_trace := [EvLog LError [VStr "An error message"]] |}).
Proof.
  exact (proj1 (setErrorResponse_logger_failure with_stack (Some broken_logger)
                  (fresh (mock_ctx (num 200))) (VStr "log sink down") eq_refl) eq_refl).
Defined.

Lemma setErrorResponse_nullish_witness :
  exists what,
    setErrorResponse VNull None (fresh (mock_ctx (num 200)))
      = (Throw (TypeError what), fresh (mock_ctx (num 200))).
Proof.
  exact (setErrorResponse_nullish VNull None (fresh (mock_ctx (num 200))) eq_refl).
Defined.

Lemma setErrorResponse_overwrites_witness :
  let once := w_ctx (snd (setErrorResponse not_found None (fresh (mock_ctx VUndef)))) in
  w_ctx (snd (setErrorResponse not_found None (fresh (mock_ctx (num 200))))) = once /\
  w_ctx (snd (setErrorResponse not_found None
                (snd (setErrorResponse not_found None (fresh (mock_ctx VUndef)))))) = once.
Proof.
  destruct (setErrorResponse_overwrites not_found None (fresh (mock_ctx VUndef))
              (fresh (mock_ctx (num 200))) VUndef VUndef eq_refl eq_refl eq_refl)
    as [Hagree Htwice].
  split; [exact (Hagree eq_refl eq_refl eq_refl) | exact Htwice].
Defined.

Lemma helper_agrees_with_stage_witness :
  let by_helper := w_ctx (snd (setErrorResponse boom None (fresh (mock_ctx VUndef)))) in
  exists c3 st ec,
    EvInstrumentation boom c3 st ec
      ∈ w_trace (snd (errorHandler (rt := example_runtime) None (rejects boom)
                        (fresh (mock_ctx VUndef)))) /\
    body_message by_helper = body_message c3 /\
    status by_helper = status c3.
Proof.
  destruct (helper_agrees_with_stage (rt := example_runtime) None (rejects boom)
              (fresh (mock_ctx VUndef)) boom (mock_ctx VUndef) (VStr "mock-trace-id")
              (mock_ctx VUndef) None (fresh (mock_ctx VUndef)) VUndef VUndef
              eq_refl eq_refl eq_refl eq_refl eq_refl)
    as (c3 & st & ec & Hin & Hmsg & Hst).
  exists c3, st, ec. split; [exact Hin|].
  split; [exact (Hmsg eq_refl eq_refl eq_refl) | exact (Hst eq_refl)].
Defined.

Lemma logError_missing_logger_witness :
  logError (rt := example_runtime) boom (num 403) (num 7) (fresh bare_ctx)
    = (Throw (TypeError "undefined"), fresh bare_ctx) /\
  logError (rt := example_runtime) boom (num 403) (num 7) (fresh quiet_ctx)
    = (Throw (TypeError "undefined"), fresh quiet_ctx).
Proof.
  split.
  - exact (logError_missing_logger (rt := example_runtime) boom (num 403) (num 7)
             (fresh bare_ctx) (or_introl eq_refl)).
  - exact (logError_missing_logger (rt := example_runtime) boom (num 403) (num 7)
             (fresh quiet_ctx)
             (or_intror (ex_intro _ _ (conj eq_refl eq_refl)))).
Defined.

Lemma logError_stack_iff_server_error_witness :
  let w := fresh (mock_ctx VUndef) in
  w_trace (snd (logError (rt := example_runtime) with_stack VUndef (num 0) w))
    = [EvLog LError (error_entry with_stack VUndef (num 0))] /\
  w_trace (snd (logError (rt := example_runtime) with_stack (num 503) (num 0) w))
    = [EvLog LError (error_entry with_stack (num 503) (num 0));
       EvLog LError [VStr "error stack trace string"]].
Proof.
  intros w. split.
  - destruct (logError_stack_iff_server_error (rt := example_runtime) with_stack VUndef
                (num 0) w mock_logger eq_refl mock_logger_well_behaved eq_refl)
      as (_ & _ & _ & Hnan).
    exact (Hnan eq_refl).
  - destruct (logError_stack_iff_server_error (rt := example_runtime) with_stack (num 503)
                (num 0) w mock_logger eq_refl mock_logger_well_behaved eq_refl)
      as (_ & Hserver & _).
    exact (Hserver eq_refl).
Defined.

Lemma requestProfiler_started_failure_witness :
  let w := fresh (mock_ctx (num 200)) in
  requestProfiler (rt := example_runtime) (Some failing_start) spy w
    = (Throw (VStr "cannot start"),
       {| w_ctx := w_ctx w; w_trace := [EvRequestStarted (w_ctx w)] |}) /\
  stage_calls (w_trace (snd (requestProfiler (rt := example_runtime) (Some failing_start)
                               spy w)))
    = [EvRequestStarted (w_ctx w)].
Proof.
  intros w.
  exact (requestProfiler_started_failure (rt := example_runtime) (Some failing_start) spy w
           (VStr "cannot start")
           {| w_ctx := w_ctx w; w_trace := [EvRequestStarted (w_ctx w)] |} eq_refl).
Defined.

Lemma requestProfiler_finished_failure_witness :
  let w := fresh quiet_ctx in
  let w1 := {| w_ctx := quiet_ctx; w_trace := [EvRequestStarted quiet_ctx] |} in
  let w3 := {| w_ctx := quiet_ctx;
               w_trace := [EvRequestStarted quiet_ctx; EvNext;
                           EvRequestFinished quiet_ctx] |} in
  requestProfiler (rt := example_runtime) (Some spied_start) spy w
    = (Throw (TypeError "undefined"), w3) /\
  stage_calls (w_trace (snd (requestProfiler (rt := example_runtime) (Some spied_start)
                               spy w)))
    = [EvRequestStarted quiet_ctx; EvNext; EvRequestFinished quiet_ctx].
Proof.
  intros w w1 w3.
  exact (requestProfiler_finished_failure (rt := example_runtime) (Some spied_start) spy w
           VUndef w1 VUndef quiet_ctx (TypeError "undefined") w3
           eq_refl eq_refl eq_refl).
Defined.

Lemma requestProfiler_result_witness :
  let w := fresh (mock_ctx (num 500)) in
  fst (requestProfiler (rt := example_runtime) (Some failing_outcome) spy w)
    = Throw (VStr "cannot report") /\
  fst (requestProfiler (rt := example_runtime) (Some spied_outcomes)
         (resolves (VStr "downstream value")) w)
    = Ok VUndef.
Proof.
  intros w. split.
  - destruct (requestProfiler_result (rt := example_runtime) (Some failing_outcome) spy w
                VUndef (after_started (num 500)) VUndef (w_ctx (after_started (num 500)))
                VUndef (after_finished (num 500)) eq_refl eq_refl eq_refl)
      as [_ Hthrow].
    rewrite (Hthrow (VStr "cannot report") _ eq_refl). reflexivity.
  - destruct (requestProfiler_result (rt := example_runtime) (Some spied_outcomes)
                (resolves (VStr "downstream value")) w
                VUndef (after_started (num 500)) (VStr "downstream value")
                (w_ctx (after_started (num 500)))
                VUndef (after_finished (num 500)) eq_refl eq_refl eq_refl)
      as [Hok _].
    rewrite (Hok VUndef _ eq_refl). reflexivity.
Defined.

Lemma default_requestStarted_resets_timing_witness :
  let final := resolved_requestStarted (rt := example_runtime) with_own_getLogger
                 (fresh quiet_ctx) in
  fst final = Ok VUndef /\
  w_trace (snd final)
    = [EvGetLogger quiet_ctx; EvLog LTrace [VStr "GET / starting"]] /\
  (exists st', state (w_ctx (snd final)) = Some st' /\
     timing st' = Some {| start := example_start; duration := VUndef |} /\
     logger st' = None /\ traceId st' = VStr "t1") /\
  status (w_ctx (snd final)) = VUndef /\ body (w_ctx (snd final)) = VUndef /\
  method (w_ctx (snd final)) = VStr "GET" /\ url (w_ctx (snd final)) = VStr "/".
Proof.
  exact (default_requestStarted_resets_timing (rt := example_runtime) with_own_getLogger
           (fresh quiet_ctx) mock_logger quiet_ctx VUndef example_start _
           eq_refl eq_refl eq_refl eq_refl eq_refl).
Defined.

Lemma default_requestStarted_failure_witness :
  resolved_requestStarted (rt := example_runtime) no_profiler_deps (fresh quiet_ctx)
    = (Throw (TypeError "undefined"),
       {| w_ctx := quiet_ctx; w_trace := [EvGetLogger quiet_ctx] |}).
Proof.
  exact (proj1 (default_requestStarted_failure (rt := example_runtime) no_profiler_deps
                  (fresh quiet_ctx) quiet_ctx eq_refl) eq_refl).
Defined.

Lemma default_requestFinished_records_duration_witness :
  let w := after_started (num 200) in
  let final := resolved_requestFinished (rt := example_runtime) no_profiler_deps w in
  let d := duration_ms (JsRuntime := example_runtime) example_diff in
  fst final = Ok VUndef /\
  w_trace (snd final) = w_trace w ++ [timing_header (rt := example_runtime) d] /\
  (exists st', state (w_ctx (snd final)) = Some st' /\
     timing st' = Some {| start := example_start; duration := d |} /\
     logger st' = Some mock_logger /\ traceId st' = VStr "mock-trace-id") /\
  status (w_ctx (snd final)) = num 200 /\
  body (w_ctx (snd final)) = VUndef.
Proof.
  exact (default_requestFinished_records_duration (rt := example_runtime) no_profiler_deps
           (after_started (num 200)) _ {| start := example_start; duration := VUndef |}
           example_diff eq_refl eq_refl eq_refl eq_refl).
Defined.

Lemma default_requestFinished_failure_witness :
  resolved_requestFinished (rt := example_runtime) no_profiler_deps (fresh bare_ctx)
    = (Throw (TypeError "undefined"), fresh bare_ctx) /\
  resolved_requestFinished (rt := example_runtime) no_profiler_deps (fresh quiet_ctx)
    = (Throw (TypeError "undefined"), fresh quiet_ctx).
Proof.
  split.
  - exact (proj1 (default_requestFinished_failure (rt := example_runtime) no_profiler_deps
                    (fresh bare_ctx) eq_refl) (or_introl eq_refl)).
  - exact (proj1 (default_requestFinished_failure (rt := example_runtime) no_profiler_deps
                    (fresh quiet_ctx) eq_refl)
             (or_intror (ex_intro _ _ (conj eq_refl eq_refl)))).
Defined.


Lemma requestProfiler_default_run_witness :
  let final := requestProfiler (rt := example_runtime) None spy (fresh (mock_ctx (num 404))) in
  let d := duration_ms (JsRuntime := example_runtime) example_diff in
  exists c2 c3,
    final =
      (Ok VUndef,
       {| w_ctx := c3;
          w_trace := [EvRequestStarted (mock_ctx (num 404)); EvGetLogger (mock_ctx (num 404));
                      EvLog LTrace [VStr "GET / starting"];
                      EvNext; EvRequestFinished c2;
                      timing_header (rt := example_runtime) d;
                      EvRequestFailed c3; EvGetLogger c3;
                      EvLog LWarn (failed_entry (rt := example_runtime) c3 (num 404) d)] |}) /\
    status c3 = num 404 /\ body c3 = VUndef.
Proof.
  intros final d. subst final.
  destruct (requestProfiler_default_run (rt := example_runtime) spy
              (fresh (mock_ctx (num 404))) _ mock_logger example_start VUndef
              (w_ctx (after_started (num 404))) _ mock_logger
              {| start := example_start; duration := VUndef |} example_diff
              eq_refl eq_refl mock_logger_well_behaved eq_refl eq_refl
              eq_refl eq_refl mock_logger_well_behaved eq_refl eq_refl)
    as (Hrun & Hst & Hbody).
  do 2 eexists. split; [exact Hrun|]. split; [exact Hst | exact Hbody].
Defined.

Lemma default_pipeline_answers_failure_witness :
  let final := requestProfiler (rt := example_runtime) None
                 (as_handler (errorHandler (rt := example_runtime) None
                                (rejects (VStr "oops"))))
                 (fresh (mock_ctx VUndef)) in
  fst final = Ok VUndef /\
  status (w_ctx (snd final)) = num 500 /\
  body (w_ctx (snd final))
    = VObj {[ "traceId" := VStr "mock-trace-id"; "errorCode" := num 0;
              "message" := VStr "Internal server error" ]} /\
  exists c2 c3,
    stage_calls (w_trace (snd final))
      = [EvRequestStarted (mock_ctx VUndef); EvNext; EvRequestFinished c2;
         EvRequestFailed c3].
Proof.
  intros final. subst final.
  destruct (default_pipeline_answers_failure (rt := example_runtime)
              (rejects (VStr "oops")) (fresh (mock_ctx VUndef)) _ mock_logger
              example_start (VStr "oops") (w_ctx (after_started VUndef)) _ mock_logger
              {| start := example_start; duration := VUndef |} example_diff
              eq_refl eq_refl mock_logger_well_behaved eq_refl eq_refl eq_refl
              eq_refl eq_refl mock_logger_well_behaved eq_refl eq_refl)
    as (Hok & Hst & Hbody & (c2 & c3 & Hcalls) & _).
  split; [exact Hok|]. split; [exact Hst|]. split; [exact Hbody|].
  exists c2, c3. exact Hcalls.
Defined.

Lemma useReturnValue_failure_transparent_witness :
  let w := fresh (mock_ctx VUndef) in
  as_handler (useReturnValue (rejects boom) spy) (w_ctx w) = (Throw boom, w_ctx w) /\
  errorHandler (rt := example_runtime) None (as_handler (useReturnValue (rejects boom) spy)) w
    = errorHandler (rt := example_runtime) None (rejects boom) w.
Proof.
  intros w.
  exact (useReturnValue_failure_transparent (rt := example_runtime) None (rejects boom) spy w
           boom (w_ctx w) eq_refl).
Defined.

Lemma handler_success_is_classified_succeeded_witness :
  let w := fresh (mock_ctx (num 500)) in
  let w1 := after_started (num 500) in
  let c2 := returned (VStr "text response") (w_ctx w1) in
  exists w3,
    status (w_ctx w3) = num 200 /\
    stage_calls (w_trace (snd (requestProfiler (rt := example_runtime) (Some spied_outcomes)
                                 (as_handler (useReturnValue
                                                (resolves (VStr "text response")) spy)) w)))
      = [EvRequestStarted (w_ctx w); EvNext; EvRequestFinished c2;
         EvRequestSucceeded (w_ctx w3)].
Proof.
  intros w w1 c2.
  set (w3 := snd (resolved_requestFinished (rt := example_runtime) spied_outcomes
                    (calling EvRequestFinished c2 (w_trace w1 ++ [EvNext])))).
  exists w3. split; [reflexivity|].
  exact (proj2 (handler_success_is_classified_succeeded (rt := example_runtime)
                  (Some spied_outcomes) (resolves (VStr "text response")) spy w
                  VUndef w1 (VStr "text response") (w_ctx w1) VUndef c2 VUndef w3
                  eq_refl eq_refl eq_refl eq_refl eq_refl eq_refl)).
Defined.
